(** * The task store of the voice to-do agent ([todo_agent.py])

    A shallow embedding of [TodoAssistant]: the task records, the store
    (ordered task list and id counter), its persistence to [tasks.json],
    the mutating tools ([add_task], [complete_task], [delete_task],
    [update_task_priority], [clear_completed_tasks]) and the derived
    views ([list_tasks], [get_daily_summary], [suggest_next_task]).

    Conventions.
    - A Python [str] is a [string]: the sequence of its UTF-8 bytes.  The
      byte-wise lexicographic order of UTF-8 coincides with Python's
      code-point order, and equality is the same.
    - A Python [int] is a [Z].
    - [datetime.now().strftime(...)] is an input of the operation that
      reads the clock: the already formatted text.
    - The file [tasks.json] and the standard output are explicit state
      ([Env]). *)

From Stdlib Require Import ZArith List String Ascii Bool Lia.
From Stdlib Require Import DecimalString Sorted Permutation.
From Stdlib Require Import OrdersEx.
From Stdlib Require Import Floats.SpecFloat.
Import ListNotations.

Local Open Scope string_scope.
Local Open Scope Z_scope.

(** ** Python strings *)

Module PyStr.

(** [str.lower()] on the ASCII range; bytes of non-ASCII characters are
    left as they are. *)
Definition lower_ascii (c : ascii) : ascii :=
  let n := nat_of_ascii c in
  if ((65 <=? n) && (n <=? 90))%nat then ascii_of_nat (n + 32) else c.

Fixpoint lower (s : string) : string :=
  match s with
  | EmptyString => EmptyString
  | String c r => String (lower_ascii c) (lower r)
  end.

(** [str(n)] and [f"{n}"] for an [int]. *)
Definition of_int (z : Z) : string := NilZero.string_of_int (Z.to_int z).

Definition of_len {A} (l : list A) : string := of_int (Z.of_nat (List.length l)).

(** Truth value of a string: empty is false. *)
Definition truthy (s : string) : bool :=
  match s with EmptyString => false | String _ _ => true end.

(** Truth value of an [Optional[str]]: [None] and [""] are false. *)
Definition truthy_opt (o : option string) : bool :=
  match o with None => false | Some s => truthy s end.

(** [s1 < s2] on [str]. *)
Definition lt (s1 s2 : string) : bool := String.ltb s1 s2.

(** [x in [a, b]] where [x] may be [None] and [a], [b] are strings. *)
Definition opt_in2 (x : option string) (a b : string) : bool :=
  match x with
  | None => false
  | Some s => String.eqb s a || String.eqb s b
  end.

End PyStr.

(** ** Data model *)

(** One task: the dict built by [add_task], with its seven keys. *)
Record Task := mkTask {
  id : Z;
  description : string;
  priority : string;
  status : string;
  created_at : string;
  due_date : option string;
  completed_at : option string
}.

(** The fields of [TodoAssistant] that make the store. *)
Record TodoAssistant := mkStore {
  tasks : list Task;
  task_id_counter : Z
}.

Definition set_tasks (self : TodoAssistant) (ts : list Task) : TodoAssistant :=
  mkStore ts (task_id_counter self).

Definition set_counter (self : TodoAssistant) (n : Z) : TodoAssistant :=
  mkStore (tasks self) n.

(** ** JSON values, as [json.load] returns them and [json.dump] takes them *)

#[warnings="-register-all"]
Inductive json :=
| JNull
| JBool (b : bool)
| JInt (z : Z)
| JStr (s : string)
| JArr (l : list json)
| JObj (kvs : list (string * json)).

Module Json.

(** Lookup in a parsed object (first binding of the key). *)
Fixpoint lookup (k : string) (kvs : list (string * json)) : option json :=
  match kvs with
  | [] => None
  | (k', v) :: r => if String.eqb k k' then Some v else lookup k r
  end.

Definition type_name (j : json) : string :=
  match j with
  | JNull => "NoneType"
  | JBool _ => "bool"
  | JInt _ => "int"
  | JStr _ => "str"
  | JArr _ => "list"
  | JObj _ => "dict"
  end.

Definition of_opt_str (o : option string) : json :=
  match o with None => JNull | Some s => JStr s end.

(** What [json.dump] writes for one task dict. *)
Definition of_task (t : Task) : json :=
  JObj [ ("id", JInt (id t));
         ("description", JStr (description t));
         ("priority", JStr (priority t));
         ("status", JStr (status t));
         ("created_at", JStr (created_at t));
         ("due_date", of_opt_str (due_date t));
         ("completed_at", of_opt_str (completed_at t)) ].

Definition get_int (k : string) (kvs : list (string * json)) : option Z :=
  match lookup k kvs with Some (JInt z) => Some z | _ => None end.

Definition get_str (k : string) (kvs : list (string * json)) : option string :=
  match lookup k kvs with Some (JStr s) => Some s | _ => None end.

Definition get_opt_str (k : string) (kvs : list (string * json))
  : option (option string) :=
  match lookup k kvs with
  | Some (JStr s) => Some (Some s)
  | Some JNull => Some None
  | _ => None
  end.

(** A parsed object read back as a task.  [None]: the object is not a
    task of the data model (a key is missing, has another type, or there
    are further keys). *)
Definition to_task (j : json) : option Task :=
  match j with
  | JObj kvs =>
      if (List.length kvs =? 7)%nat then
        match get_int "id" kvs, get_str "description" kvs,
              get_str "priority" kvs, get_str "status" kvs,
              get_str "created_at" kvs, get_opt_str "due_date" kvs,
              get_opt_str "completed_at" kvs with
        | Some i, Some d, Some p, Some s, Some c, Some du, Some co =>
            Some (mkTask i d p s c du co)
        | _, _, _, _, _, _, _ => None
        end
      else None
  | _ => None
  end.

Fixpoint to_tasks_list (l : list json) : option (list Task) :=
  match l with
  | [] => Some []
  | j :: r =>
      match to_task j, to_tasks_list r with
      | Some t, Some ts => Some (t :: ts)
      | _, _ => None
      end
  end.

Definition to_tasks (j : json) : option (list Task) :=
  match j with JArr l => to_tasks_list l | _ => None end.

Definition to_counter (j : json) : option Z :=
  match j with JInt z => Some z | _ => None end.

End Json.

(** ** The environment: the file [tasks.json] and what was printed *)

Inductive file_state :=
| Missing                      (* [os.path.exists] is false *)
| Unreadable (e : string)      (* [open] or [json.load] raises [e] *)
| Parsed (j : json).           (* [json.load] returns [j] *)

Record Env := mkEnv {
  file : file_state;
  write_error : option string; (* [Some e]: [open(..., "w")] raises [e] *)
  stdout : list string
}.

Definition print (line : string) (env : Env) : Env :=
  mkEnv (file env) (write_error env) (stdout env ++ [line]).

Definition write_file (j : json) (env : Env) : Env :=
  mkEnv (Parsed j) (write_error env) (stdout env).

(** Result of a step that may raise. *)
Inductive result (A : Type) :=
| Return (a : A)
| Raise (e : string).
Arguments Return {A} a.
Arguments Raise {A} e.

Definition path_exists (f : file_state) : bool :=
  match f with Missing => false | _ => true end.

(** [with open("tasks.json", "r") as f: data = json.load(f)] *)
Definition open_and_load (f : file_state) : result json :=
  match f with
  | Parsed j => Return j
  | Unreadable e => Raise e
  | Missing => Raise "[Errno 2] No such file or directory: 'tasks.json'"
  end.

(** [data.get(key, default)]: only a dict has [get]. *)
Definition data_get (data : json) (key : string) (default : json) : result json :=
  match data with
  | JObj kvs =>
      Return (match Json.lookup key kvs with Some v => v | None => default end)
  | _ => Raise ("'" ++ Json.type_name data ++ "' object has no attribute 'get'")
  end.

(** ** Persistence *)

(** [load_tasks].  The [try] body runs step by step; any exception goes to
    the handler, which prints and returns.  The result is [None] when the
    file holds values outside the data model (the Python object would then
    carry them unchecked). *)
Definition load_tasks (self : TodoAssistant) (env : Env)
  : option (TodoAssistant * Env) :=
  let handler (self' : TodoAssistant) (e : string) :=
    Some (self', print ("Could not load tasks: " ++ e) env) in
  if path_exists (file env) then
    match open_and_load (file env) with
    | Raise e => handler self e
    | Return data =>
        match data_get data "tasks" (JArr []) with
        | Raise e => handler self e
        | Return jt =>
            match Json.to_tasks jt with
            | None => None
            | Some ts =>
                let self1 := set_tasks self ts in
                match data_get data "next_id" (JInt 1) with
                | Raise e => handler self1 e
                | Return jn =>
                    match Json.to_counter jn with
                    | None => None
                    | Some n => Some (set_counter self1 n, env)
                    end
                end
            end
        end
    end
  else Some (self, env).

(** What [json.dump] is given by [save_tasks]. *)
Definition dump (self : TodoAssistant) : json :=
  JObj [ ("tasks", JArr (map Json.of_task (tasks self)));
         ("next_id", JInt (task_id_counter self)) ].

(** [save_tasks]: the whole state overwrites the file; a failure to open
    it for writing is printed and otherwise ignored. *)
Definition save_tasks (self : TodoAssistant) (env : Env) : Env :=
  match write_error env with
  | None => write_file (dump self) env
  | Some e => print ("Could not save tasks: " ++ e) env
  end.

(** [__init__]: empty list, counter 1, then [load_tasks]. *)
Definition empty_store : TodoAssistant := mkStore [] 1.

Definition init (env : Env) : option (TodoAssistant * Env) :=
  load_tasks empty_store env.

(** ** Helpers for the loops over [self.tasks] *)

(** [for i, task in enumerate(self.tasks): if task["id"] == task_id: ...]:
    the first task with that id and its index. *)
Fixpoint find_task (task_id : Z) (l : list Task) (i : nat) : option (nat * Task) :=
  match l with
  | [] => None
  | t :: r => if id t =? task_id then Some (i, t) else find_task task_id r (S i)
  end.

(** In-place update of the dict at index [i]. *)
Fixpoint set_nth (i : nat) (t' : Task) (l : list Task) {struct l} : list Task :=
  match l, i with
  | [], _ => []
  | _ :: r, O => t' :: r
  | t :: r, S j => t :: set_nth j t' r
  end.

(** [self.tasks.pop(i)] for an index in range. *)
Fixpoint pop_nth (i : nat) (l : list Task) {struct l} : list Task :=
  match l, i with
  | [], _ => []
  | _ :: r, O => r
  | t :: r, S j => t :: pop_nth j r
  end.

(** [sum(1 for t in l if p(t))] *)
Definition count_if (p : Task -> bool) (l : list Task) : Z :=
  Z.of_nat (List.length (filter p l)).

Definition is_pending (t : Task) : bool := String.eqb (status t) "pending".
Definition is_completed (t : Task) : bool := String.eqb (status t) "completed".
Definition is_high_priority (t : Task) : bool :=
  String.eqb (priority t) "high" || String.eqb (priority t) "urgent".

(** [{"low": ..., "medium": ..., "high": ..., "urgent": ...}.get(p, "⚪")] *)
Definition priority_emoji (p : string) : string :=
  if String.eqb p "low" then "🔵"
  else if String.eqb p "medium" then "🟡"
  else if String.eqb p "high" then "🟠"
  else if String.eqb p "urgent" then "🔴"
  else "⚪".

Definition nl : string := String (ascii_of_nat 10) EmptyString.

(** ** The tools *)

Definition default_priority : string := "medium".

(** [add_task]; [now] is [datetime.now().strftime("%Y-%m-%d %H:%M")]. *)
Definition add_task (self : TodoAssistant) (env : Env) (now : string)
    (task_description priority : string) (due_date : option string)
  : string * TodoAssistant * Env :=
  let task := mkTask (task_id_counter self) task_description
                (PyStr.lower priority) "pending" now due_date None in
  let self1 := set_tasks self (tasks self ++ [task]) in
  let self2 := set_counter self1 (task_id_counter self1 + 1) in
  let env' := save_tasks self2 env in
  let response := "Got it! I've added '" ++ task_description
                  ++ "' to your list " ++ priority_emoji (PyStr.lower priority) in
  let response :=
    match due_date with
    | Some d => if PyStr.truthy d then response ++ " (due " ++ d ++ ")" else response
    | None => response
    end in
  (response, self2, env').

(** The filter loop of [list_tasks]; [today] is
    [datetime.now().strftime("%Y-%m-%d")]. *)
Definition list_filter_step (filter_lower today : string)
    (filtered_tasks : list Task) (task : Task) : list Task :=
  if String.eqb filter_lower "all" then filtered_tasks ++ [task]
  else if String.eqb filter_lower "pending" && String.eqb (status task) "pending"
  then filtered_tasks ++ [task]
  else if String.eqb filter_lower "completed" && String.eqb (status task) "completed"
  then filtered_tasks ++ [task]
  else if String.eqb filter_lower "today" && PyStr.opt_in2 (due_date task) "today" today
  then filtered_tasks ++ [task]
  else if String.eqb filter_lower "high-priority"
          && (String.eqb (priority task) "high" || String.eqb (priority task) "urgent")
  then filtered_tasks ++ [task]
  else filtered_tasks.

Definition filtered_tasks (self : TodoAssistant) (today filter_by : string) : list Task :=
  fold_left (list_filter_step (PyStr.lower filter_by) today) (tasks self) [].

(** One line of the listing. *)
Definition list_line (task : Task) : string :=
  let status_icon := if String.eqb (status task) "completed" then "✅" else "⬜" in
  let line := status_icon ++ " " ++ priority_emoji (priority task) ++ " "
              ++ description task in
  let line :=
    match due_date task with
    | Some d => if PyStr.truthy d then line ++ " (due " ++ d ++ ")" else line
    | None => line
    end in
  line ++ " [ID: " ++ PyStr.of_int (id task) ++ "]" ++ nl.

Definition list_footer (self : TodoAssistant) : string :=
  let pending_count := count_if is_pending (tasks self) in
  let completed_count := count_if is_completed (tasks self) in
  nl ++ "📊 Total: " ++ PyStr.of_len (tasks self) ++ " tasks ("
     ++ PyStr.of_int pending_count ++ " pending, "
     ++ PyStr.of_int completed_count ++ " completed)".

Definition list_tasks (self : TodoAssistant) (today filter_by : string) : string :=
  match tasks self with
  | [] => "Your to-do list is empty! What would you like to accomplish today?"
  | _ :: _ =>
      match filtered_tasks self today filter_by with
      | [] => "No " ++ filter_by ++ " tasks found."
      | filtered =>
          let result := "Here are your " ++ filter_by ++ " tasks:" ++ nl ++ nl in
          let result := fold_left (fun r task => r ++ list_line task) filtered result in
          result ++ list_footer self
      end
  end.

Definition already_completed_message (task : Task) : string :=
  "Task '" ++ description task ++ "' is already completed! 🎉".

Definition completed_message (task : Task) (remaining : Z) : string :=
  let response := "Awesome! ✅ You completed '" ++ description task ++ "'" in
  if remaining =? 0 then
    response ++ nl ++ nl
      ++ "🎉 Amazing! You've completed all your tasks! You're crushing it today!"
  else if remaining =? 1 then
    response ++ nl ++ nl ++ "Just 1 more task to go! You're almost done!"
  else
    response ++ nl ++ nl ++ PyStr.of_int remaining
      ++ " tasks remaining. Keep up the great work!".

Definition not_found_hint (task_id : Z) : string :=
  "I couldn't find a task with ID " ++ PyStr.of_int task_id
    ++ ". Try listing your tasks to see the IDs.".

Definition not_found (task_id : Z) : string :=
  "I couldn't find a task with ID " ++ PyStr.of_int task_id ++ ".".

(** [complete_task]; [now] is [datetime.now().strftime("%Y-%m-%d %H:%M")]. *)
Definition complete_task (self : TodoAssistant) (env : Env) (now : string)
    (task_id : Z) : string * TodoAssistant * Env :=
  match find_task task_id (tasks self) 0 with
  | Some (i, task) =>
      if String.eqb (status task) "completed" then
        (already_completed_message task, self, env)
      else
        let task1 := mkTask (id task) (description task) (priority task)
                       "completed" (created_at task) (due_date task)
                       (completed_at task) in
        let task2 := mkTask (id task1) (description task1) (priority task1)
                       (status task1) (created_at task1) (due_date task1)
                       (Some now) in
        let self' := set_tasks self (set_nth i task2 (tasks self)) in
        let env' := save_tasks self' env in
        let remaining := count_if is_pending (tasks self') in
        (completed_message task2 remaining, self', env')
  | None => (not_found_hint task_id, self, env)
  end.

Definition delete_task (self : TodoAssistant) (env : Env) (task_id : Z)
  : string * TodoAssistant * Env :=
  match find_task task_id (tasks self) 0 with
  | Some (i, task) =>
      let description := description task in
      let self' := set_tasks self (pop_nth i (tasks self)) in
      let env' := save_tasks self' env in
      ("Removed '" ++ description ++ "' from your list.", self', env')
  | None => (not_found task_id, self, env)
  end.

Definition update_task_priority (self : TodoAssistant) (env : Env)
    (task_id : Z) (new_priority : string) : string * TodoAssistant * Env :=
  match find_task task_id (tasks self) 0 with
  | Some (i, task) =>
      let old_priority := priority task in
      let task' := mkTask (id task) (description task) (PyStr.lower new_priority)
                     (status task) (created_at task) (due_date task)
                     (completed_at task) in
      let self' := set_tasks self (set_nth i task' (tasks self)) in
      let env' := save_tasks self' env in
      ("Updated '" ++ description task' ++ "' from " ++ old_priority ++ " to "
         ++ new_priority ++ " priority " ++ priority_emoji (PyStr.lower new_priority),
       self', env')
  | None => (not_found task_id, self, env)
  end.

Definition clear_completed_tasks (self : TodoAssistant) (env : Env)
  : string * TodoAssistant * Env :=
  let completed := filter is_completed (tasks self) in
  match completed with
  | [] => ("No completed tasks to clear.", self, env)
  | _ :: _ =>
      let count := Z.of_nat (List.length completed) in
      let self' := set_tasks self (filter (fun t => negb (is_completed t)) (tasks self)) in
      let env' := save_tasks self' env in
      ("Cleared " ++ PyStr.of_int count ++ " completed task"
         ++ (if negb (count =? 1) then "s" else "") ++ ". Fresh start! 🧹",
       self', env')
  end.

(** ** [sorted(iterable, key=...)] *)

(** Python's [sorted] is a stable sort that compares keys with [<] only.
    It is embedded as the stable insertion sort: each element, in the
    order of the input, goes into the sorted prefix after every element
    that is not greater than it. *)
Section Sorted.
Context {A K : Type}.
Variable key : A -> K.
Variable lt : K -> K -> bool.

Fixpoint insert_after_le (x : A) (l : list A) : list A :=
  match l with
  | [] => [x]
  | y :: r => if lt (key x) (key y) then x :: y :: r
              else y :: insert_after_le x r
  end.

Definition sorted (l : list A) : list A :=
  fold_left (fun acc x => insert_after_le x acc) l [].

(** The first of the smallest, tracked along the input: a later element
    replaces the candidate only when its key is smaller. *)
Fixpoint first_min_from (m : A) (l : list A) : A :=
  match l with
  | [] => m
  | x :: r => first_min_from (if lt (key x) (key m) then x else m) r
  end.
End Sorted.

(** Comparison of the key tuples [(int, str)]: the first components that
    differ decide. *)
Definition tuple_lt (a b : Z * string) : bool :=
  if fst a =? fst b then
    if String.eqb (snd a) (snd b) then false else PyStr.lt (snd a) (snd b)
  else fst a <? fst b.

(** [priority_order.get(p, 4)] *)
Definition priority_order (p : string) : Z :=
  if String.eqb p "urgent" then 0
  else if String.eqb p "high" then 1
  else if String.eqb p "medium" then 2
  else if String.eqb p "low" then 3
  else 4.

(** The [key] lambda of [suggest_next_task]. *)
Definition sort_key (t : Task) : Z * string :=
  (priority_order (priority t),
   match due_date t with
   | Some d => if PyStr.truthy d then d else "9999"
   | None => "9999"
   end).

Definition pending_tasks (self : TodoAssistant) : list Task :=
  filter is_pending (tasks self).

(** [sorted_tasks[0]]; [None] stands for the [IndexError] on an empty
    list. *)
Definition next_task (self : TodoAssistant) : option Task :=
  hd_error (sorted sort_key tuple_lt (pending_tasks self)).

Definition suggestion (next_task : Task) (pending_tasks : list Task) : string :=
  let response := "I suggest working on: " ++ priority_emoji (priority next_task)
                  ++ " '" ++ description next_task ++ "'" in
  let response :=
    match due_date next_task with
    | Some d => if PyStr.truthy d then response ++ " (due " ++ d ++ ")" else response
    | None => response
    end in
  let response := response ++ nl ++ nl ++ "This is your " ++ priority next_task
                  ++ " priority task." in
  if (1 <? Z.of_nat (List.length pending_tasks)) then
    response ++ " You have " ++ PyStr.of_int (Z.of_nat (List.length pending_tasks) - 1)
      ++ " other tasks waiting."
  else response.

Definition suggest_next_task (self : TodoAssistant) : result string :=
  match pending_tasks self with
  | [] => Return "You've completed all your tasks! 🎉 Want to add something new?"
  | _ :: _ =>
      match next_task self with
      | Some t => Return (suggestion t (pending_tasks self))
      | None => Raise "list index out of range"
      end
  end.

(** ** Python floats *)

(** A Python [float] is an IEEE 754 binary64 number: [spec_float] with
    precision 53 and maximal exponent 1024, and the operations of
    [SpecFloat] (round to nearest, ties to even). *)
Module PyFloat.

Definition prec : Z := 53.
Definition emax : Z := 1024.

Definition float := spec_float.

(** [float(n)] for an [int]. *)
Definition of_int (z : Z) : float := binary_normalize prec emax z 0 false.

(** [x * y] on floats. *)
Definition mul (x y : float) : float := SFmul prec emax x y.

(** [a / b] on two [int]s that convert to [float] exactly (below
    [2^53]): the quotient of the converted operands; a zero divisor
    raises. *)
Definition true_div (a b : Z) : result float :=
  if b =? 0 then Raise "division by zero"
  else Return (SFdiv prec emax (of_int a) (of_int b)).

(** [x == n] and [x >= n] for a float [x] and an [int] [n] that is a
    float. *)
Definition eq_int (x : float) (n : Z) : bool := SFeqb x (of_int n).
Definition ge_int (x : float) (n : Z) : bool := SFleb (of_int n) x.

(** The integer nearest to [m / 2^k], ties to the even one. *)
Definition round_half_even (m : Z) (k : Z) : Z :=
  let q := m / 2 ^ k in
  let r := m mod 2 ^ k in
  let half := 2 ^ (k - 1) in
  if r <? half then q
  else if half <? r then q + 1
  else if Z.even q then q else q + 1.

(** The integer nearest to the magnitude [m * 2^e]. *)
Definition nearest_int (m : positive) (e : Z) : Z :=
  if 0 <=? e then Z.pos m * 2 ^ e else round_half_even (Z.pos m) (- e).

(** [f"{x:.0f}"] *)
Definition format_0f (x : float) : string :=
  match x with
  | S754_nan => "nan"
  | S754_infinity s => if s then "-inf" else "inf"
  | S754_zero s => if s then "-0" else "0"
  | S754_finite s m e =>
      (if s then "-" else "") ++ PyStr.of_int (nearest_int m e)
  end.

End PyFloat.

(** ** The daily summary *)

Definition empty_summary : string :=
  "You don't have any tasks yet. What would you like to accomplish today?".

Definition tier5 : string := "🎉 Perfect! You've completed everything!".
Definition tier4 : string := "🌟 Great progress! You're almost there!".
Definition tier3 : string := "👍 Good work! Keep it up!".
Definition tier2 : string := "💪 You're making progress! Stay focused!".
Definition tier1 : string := "🚀 Let's get started! You've got this!".

(** [(completed / total * 100) if total > 0 else 0] *)
Definition completion_rate (completed total : Z) : result PyFloat.float :=
  if 0 <? total then
    match PyFloat.true_div completed total with
    | Return q => Return (PyFloat.mul q (PyFloat.of_int 100))
    | Raise e => Raise e
    end
  else Return (PyFloat.of_int 0).

(** The [if]/[elif] chain on the completion rate. *)
Definition encouragement (completion_rate : PyFloat.float) : string :=
  if PyFloat.eq_int completion_rate 100 then tier5
  else if PyFloat.ge_int completion_rate 75 then tier4
  else if PyFloat.ge_int completion_rate 50 then tier3
  else if PyFloat.ge_int completion_rate 25 then tier2
  else tier1.

Definition summary_text (total completed pending high_priority : Z)
    (completion_rate : PyFloat.float) : string :=
  let summary := "📊 Daily Summary" ++ nl ++ nl in
  let summary := summary ++ "Total tasks: " ++ PyStr.of_int total ++ nl in
  let summary := summary ++ "✅ Completed: " ++ PyStr.of_int completed ++ nl in
  let summary := summary ++ "⬜ Pending: " ++ PyStr.of_int pending ++ nl in
  let summary := summary ++ "🔴 High priority: " ++ PyStr.of_int high_priority ++ nl in
  let summary := summary ++ "Progress: " ++ PyFloat.format_0f completion_rate
                 ++ "%" ++ nl ++ nl in
  summary ++ encouragement completion_rate.

Definition get_daily_summary (self : TodoAssistant) : result string :=
  match tasks self with
  | [] => Return empty_summary
  | _ :: _ =>
      let total := Z.of_nat (List.length (tasks self)) in
      let completed := count_if is_completed (tasks self) in
      let pending := count_if is_pending (tasks self) in
      let high_priority :=
        count_if (fun t => is_high_priority t && is_pending t) (tasks self) in
      match completion_rate completed total with
      | Return rate =>
          Return (summary_text total completed pending high_priority rate)
      | Raise e => Raise e
      end
  end.

(** ** Sequences of tool calls *)

Inductive call :=
| AddTask (now task_description priority : string) (due_date : option string)
| ListTasks (today filter_by : string)
| CompleteTask (now : string) (task_id : Z)
| DeleteTask (task_id : Z)
| UpdateTaskPriority (task_id : Z) (new_priority : string)
| GetDailySummary
| SuggestNextTask
| ClearCompletedTasks.

(** One call: the returned text (or the exception), the store and the
    environment after it. *)
Definition step (c : call) (st : TodoAssistant * Env)
  : result string * TodoAssistant * Env :=
  let '(self, env) := st in
  match c with
  | AddTask now d p due =>
      let '(r, self', env') := add_task self env now d p due in (Return r, self', env')
  | ListTasks today f => (Return (list_tasks self today f), self, env)
  | CompleteTask now i =>
      let '(r, self', env') := complete_task self env now i in (Return r, self', env')
  | DeleteTask i =>
      let '(r, self', env') := delete_task self env i in (Return r, self', env')
  | UpdateTaskPriority i p =>
      let '(r, self', env') := update_task_priority self env i p in (Return r, self', env')
  | GetDailySummary => (get_daily_summary self, self, env)
  | SuggestNextTask => (suggest_next_task self, self, env)
  | ClearCompletedTasks =>
      let '(r, self', env') := clear_completed_tasks self env in (Return r, self', env')
  end.

Definition after (c : call) (st : TodoAssistant * Env) : TodoAssistant * Env :=
  let '(_, self', env') := step c st in (self', env').

(** The state after a sequence of calls. *)
Definition run (cs : list call) (st : TodoAssistant * Env) : TodoAssistant * Env :=
  fold_left (fun st c => after c st) cs st.

(** The states reachable from the empty store. *)
Definition reachable (self : TodoAssistant) : Prop :=
  exists cs env, fst (run cs (empty_store, env)) = self.

(** The id an [AddTask] call assigns: the id of the task it appended. *)
Definition assigned_id (c : call) (st : TodoAssistant * Env) : option Z :=
  match c with
  | AddTask _ _ _ _ => option_map id (hd_error (rev (tasks (fst (after c st)))))
  | _ => None
  end.

(** ** The claims' wording, to compare with the code *)

(** The due-date component of the sort key when only an absent due date
    is replaced by the sentinel. *)
Definition due_text_absent_only (t : Task) : string :=
  match due_date t with
  | Some d => d
  | None => "9999"
  end.

Definition key_absent_only (t : Task) : Z * string :=
  (priority_order (priority t), due_text_absent_only t).

(** ** Example stores *)

Definition quiet : Env := mkEnv Missing None [].

(** Four pending tasks with priorities [low, urgent, medium, urgent] and
    due dates [None, "Oct 5", "today", "Oct 1"]. *)
Definition four_pending : TodoAssistant :=
  fst (run [ AddTask "2025-10-01 09:00" "water plants" "low" None;
             AddTask "2025-10-01 09:01" "pay rent" "urgent" (Some "Oct 5");
             AddTask "2025-10-01 09:02" "write report" "medium" (Some "today");
             AddTask "2025-10-01 09:03" "call bank" "urgent" (Some "Oct 1") ]
           (empty_store, quiet)).

(** Two urgent tasks, the first added with an empty due date. *)
Definition empty_due_store : TodoAssistant :=
  fst (run [ AddTask "2025-10-01 09:00" "call bank" "urgent" (Some "");
             AddTask "2025-10-01 09:01" "pay rent" "urgent" (Some "2025-10-01") ]
           (empty_store, quiet)).

(** Two tasks of equal priority, one undated and one due "today". *)
Definition undated_and_today : TodoAssistant :=
  fst (run [ AddTask "2025-10-01 09:00" "write report" "high" (Some "today");
             AddTask "2025-10-01 09:01" "water plants" "high" None ]
           (empty_store, quiet)).


(** ** Derived notions used by the properties *)

(** An ASCII letter. *)
Definition is_ascii_letter (c : ascii) : bool :=
  let n := nat_of_ascii c in
  ((65 <=? n) && (n <=? 90) || (97 <=? n) && (n <=? 122))%nat.

(** The ids assigned by the [AddTask] calls of a sequence, in call
    order. *)
Fixpoint assigned_ids (cs : list call) (st : TodoAssistant * Env) : list Z :=
  match cs with
  | [] => []
  | c :: r =>
      match assigned_id c st with
      | Some i => i :: assigned_ids r (after c st)
      | None => assigned_ids r (after c st)
      end
  end.

Definition counter_of (st : TodoAssistant * Env) : Z := task_id_counter (fst st).

(** Status and completion time agree. *)
Definition coupled (t : Task) : Prop :=
  status t = "completed" <-> completed_at t <> None.

(** A call that is not an [add_task] with an empty description. *)
Definition nonempty_description (c : call) : Prop :=
  match c with
  | AddTask _ d _ _ => d <> ""
  | _ => True
  end.

(** Concatenation of the lines of a listing. *)
Definition join (ls : list string) : string :=
  fold_right String.append "" ls.

(** A store with one pending task, and the same store after the task was
    completed. *)
Definition one_pending : TodoAssistant :=
  fst (run [ AddTask "2025-10-01 09:00" "buy milk" "high" None ]
           (empty_store, quiet)).

Definition one_done : TodoAssistant :=
  fst (run [ AddTask "2025-10-01 09:00" "buy milk" "high" None;
             CompleteTask "2025-10-01 10:30" 1 ]
           (empty_store, quiet)).

(** A store after [add_task] was called with an empty description. *)
Definition empty_description_store : TodoAssistant :=
  fst (run [ AddTask "2025-10-01 09:00" "" "medium" None ] (empty_store, quiet)).

(** A file with one task of id 1 and no "next_id" field. *)
Definition file_without_next_id : json :=
  JObj [ ("tasks",
          JArr [ Json.of_task (mkTask 1 "buy milk" "high" "pending"
                                 "2025-10-01 09:00" None None) ]) ].

(** ** Notions used by the further properties *)

(** The task [t] with another priority, as [update_task_priority] leaves
    it. *)
Definition with_priority (t : Task) (p : string) : Task :=
  mkTask (id t) (description t) p (status t) (created_at t) (due_date t)
         (completed_at t).

(** The task [t] marked completed at [now], as [complete_task] leaves
    it. *)
Definition marked_completed (t : Task) (now : string) : Task :=
  mkTask (id t) (description t) (priority t) "completed" (created_at t)
         (due_date t) (Some now).

(** The ids of the stored tasks grow along the list and lie between 1 and
    the counter. *)
Definition ids_ok (self : TodoAssistant) : Prop :=
  StronglySorted Z.lt (map id (tasks self)) /\
  Forall (fun t => 0 < id t < task_id_counter self) (tasks self).

(** The file holds the store: a fresh store built from it is this one. *)
Definition persisted (st : TodoAssistant * Env) : Prop :=
  init (snd st) = Some (fst st, snd st).

(** The five keywords [list_tasks] knows. *)
Definition known_filter (f : string) : bool :=
  String.eqb f "all" || String.eqb f "pending" || String.eqb f "completed"
  || String.eqb f "today" || String.eqb f "high-priority".

(** Two tasks that differ at most in priority, status and completion
    time. *)
Definition same_identity (t t' : Task) : Prop :=
  id t' = id t /\ description t' = description t /\
  created_at t' = created_at t /\ due_date t' = due_date t.

(** How one call can change a stored task [t] into [t']: not at all, by
    a new lower-cased priority, or by completing it when it was not
    completed. *)
Definition evolves (c : call) (t t' : Task) : Prop :=
  t' = t \/
  (exists p, c = UpdateTaskPriority (id t) p /\
             t' = with_priority t (PyStr.lower p)) \/
  (exists now, c = CompleteTask now (id t) /\ status t <> "completed" /\
               t' = marked_completed t now).

(** The task that an [AddTask] call creates in the store [self]. *)
Definition created (c : call) (self : TodoAssistant) (t' : Task) : Prop :=
  exists now d p due,
    c = AddTask now d p due /\
    t' = mkTask (task_id_counter self) d (PyStr.lower p) "pending" now due None.

(** The shift record [(m, r, s)] locates [N / D]: [m] is the integer part,
    [r] says that the rest is at least one half, [s] that it is neither
    zero nor one half. *)
Definition locates (mrs : shr_record) (N D : Z) : Prop :=
  0 <= shr_m mrs /\
  exists rho,
    N = shr_m mrs * D + rho /\ 0 <= rho < D /\
    (shr_r mrs = true <-> D <= 2 * rho) /\
    (shr_s mrs = true <-> rho <> 0 /\ 2 * rho <> D).

(** The encouragement that exact arithmetic on the counts gives: by the
    thresholds 100, 75, 50 and 25 on [100 * c / t]. *)
Definition exact_tier (c t : Z) : string :=
  if c =? t then tier5
  else if 3 * t <=? 4 * c then tier4
  else if 2 * t <=? 4 * c then tier3
  else if t <=? 4 * c then tier2
  else tier1.

(** A store with one completed and two pending tasks. *)
Definition three_tasks : TodoAssistant :=
  fst (run [ AddTask "2025-10-01 09:00" "buy milk" "High" None;
             AddTask "2025-10-01 09:01" "write report" "medium" (Some "today");
             AddTask "2025-10-01 09:02" "call bank" "URGENT" (Some "2025-10-02");
             CompleteTask "2025-10-01 10:30" 1 ]
           (empty_store, quiet)).

(** * Properties *)

Local Open Scope list_scope.

(** ** Order on strings and key tuples *)

Lemma ascii_compare_lt_trans (a b c : ascii) :
  Ascii.compare a b = Lt -> Ascii.compare b c = Lt -> Ascii.compare a c = Lt.
Proof.
  unfold Ascii.compare. rewrite !N.compare_lt_iff. apply N.lt_trans.
Qed.

Lemma string_compare_refl (s : string) : String.compare s s = Eq.
Proof.
  induction s as [|c s IH]; simpl; [reflexivity|].
  unfold Ascii.compare. now rewrite N.compare_refl.
Qed.

Lemma string_compare_lt_trans (a b c : string) :
  String.compare a b = Lt -> String.compare b c = Lt -> String.compare a c = Lt.
Proof.
  revert b c. induction a as [|x a IH]; intros [|y b] [|z c]; simpl;
    try congruence.
  destruct (Ascii.compare x y) eqn:Hxy; try discriminate.
  - apply Ascii.compare_eq_iff in Hxy. subst y.
    destruct (Ascii.compare x z); try congruence. apply IH.
  - intros _. destruct (Ascii.compare y z) eqn:Hyz; try discriminate.
    + apply Ascii.compare_eq_iff in Hyz. subst z. now rewrite Hxy.
    + intros _. now rewrite (ascii_compare_lt_trans x y z Hxy Hyz).
Qed.

Lemma string_compare_gt_lt (a b : string) :
  String.compare a b = Gt <-> String.compare b a = Lt.
Proof.
  rewrite (String.compare_antisym a b).
  destruct (String.compare b a); simpl; split; congruence.
Qed.

(** [tuple_lt] is the lexicographic order: the ranks decide, and the
    due-date texts decide between equal ranks. *)
Lemma tuple_lt_spec (a b : Z * string) :
  tuple_lt a b = true <->
  fst a < fst b \/ (fst a = fst b /\ String.compare (snd a) (snd b) = Lt).
Proof.
  unfold tuple_lt, PyStr.lt, String.ltb.
  destruct (Z.eqb_spec (fst a) (fst b)) as [E|E].
  - destruct (String.eqb_spec (snd a) (snd b)) as [E'|E'].
    + rewrite E'. rewrite string_compare_refl. split; [discriminate|].
      intros [H|[_ H]]; [lia|discriminate].
    + destruct (String.compare (snd a) (snd b)); split; try discriminate;
        try (intros [H|[_ H]]; [lia|discriminate]); auto.
  - rewrite Z.ltb_lt. split; [auto|]. intros [H|[H _]]; [exact H|contradiction].
Qed.

Lemma tuple_lt_irrefl (a : Z * string) : tuple_lt a a = false.
Proof.
  destruct (tuple_lt a a) eqn:H; [|reflexivity].
  apply tuple_lt_spec in H. rewrite string_compare_refl in H.
  destruct H as [H|[_ H]]; [lia|discriminate].
Qed.

(** "Not less" is transitive: with irreflexivity, what a stable sort
    needs of [<]. *)
Lemma tuple_lt_neg_trans (a b c : Z * string) :
  tuple_lt a b = false -> tuple_lt b c = false -> tuple_lt a c = false.
Proof.
  intros Hab Hbc. destruct (tuple_lt a c) eqn:Hac; [|reflexivity].
  apply tuple_lt_spec in Hac.
  assert (Nab : ~ (fst a < fst b \/
                   (fst a = fst b /\ String.compare (snd a) (snd b) = Lt))).
  { rewrite <- tuple_lt_spec. congruence. }
  assert (Nbc : ~ (fst b < fst c \/
                   (fst b = fst c /\ String.compare (snd b) (snd c) = Lt))).
  { rewrite <- tuple_lt_spec. congruence. }
  exfalso.
  destruct Hac as [H|[H1 H2]].
  - destruct (Z.lt_trichotomy (fst a) (fst b)) as [L|[L|L]]; [tauto| |].
    + apply Nbc. left. lia.
    + apply Nbc. left. lia.
  - destruct (Z.lt_trichotomy (fst a) (fst b)) as [L|[L|L]]; [tauto| |].
    + destruct (String.compare (snd a) (snd b)) eqn:Cab.
      * apply String.compare_eq_iff in Cab. apply Nbc. right.
        split; [congruence|]. now rewrite <- Cab.
      * tauto.
      * apply string_compare_gt_lt in Cab. apply Nbc. right.
        split; [congruence|]. eapply string_compare_lt_trans; eauto.
    + apply Nbc. left. lia.
Qed.

(** ** The stable sort and its head *)

Section SortedFacts.
Context {A K : Type}.
Variable key : A -> K.
Variable lt : K -> K -> bool.

Lemma insert_after_le_perm (x : A) (l : list A) :
  Permutation (x :: l) (insert_after_le key lt x l).
Proof.
  induction l as [|y r IH]; simpl; [apply Permutation_refl|].
  destruct (lt (key x) (key y)); [apply Permutation_refl|].
  eapply perm_trans; [apply perm_swap|]. now apply perm_skip.
Qed.

Lemma fold_insert_perm (l acc : list A) :
  Permutation (acc ++ l)
    (fold_left (fun acc x => insert_after_le key lt x acc) l acc).
Proof.
  revert acc. induction l as [|x r IH]; intros acc; simpl.
  - rewrite app_nil_r. apply Permutation_refl.
  - eapply perm_trans; [|apply IH].
    eapply perm_trans; [apply Permutation_sym, Permutation_middle|].
    change (x :: acc ++ r) with ((x :: acc) ++ r).
    apply Permutation_app_tail, insert_after_le_perm.
Qed.

(** [sorted] returns the same elements. *)
Lemma sorted_perm (l : list A) : Permutation l (sorted key lt l).
Proof. exact (fold_insert_perm l []). Qed.

Lemma hd_insert_after_le (x : A) (l : list A) :
  hd_error (insert_after_le key lt x l) =
  Some match l with
       | [] => x
       | y :: _ => if lt (key x) (key y) then x else y
       end.
Proof.
  destruct l as [|y r]; simpl; [reflexivity|].
  now destruct (lt (key x) (key y)).
Qed.

Lemma hd_fold_insert (l : list A) (h : A) (acc : list A) :
  hd_error (fold_left (fun acc x => insert_after_le key lt x acc) l (h :: acc))
  = Some (first_min_from key lt h l).
Proof.
  revert h acc. induction l as [|x r IH]; intros h acc; [reflexivity|].
  cbn [fold_left first_min_from insert_after_le].
  destruct (lt (key x) (key h)); apply IH.
Qed.

(** The head of the sorted list is the first of the smallest. *)
Lemma hd_sorted (m : A) (l : list A) :
  hd_error (sorted key lt (m :: l)) = Some (first_min_from key lt m l).
Proof. unfold sorted. cbn [fold_left insert_after_le]. apply hd_fold_insert. Qed.

Hypothesis lt_asym : forall a b, lt a b = true -> lt b a = false.
Hypothesis lt_neg_trans :
  forall a b c, lt a b = false -> lt b c = false -> lt a c = false.

Lemma lt_le_trans (a b c : K) :
  lt a b = true -> lt c b = false -> lt a c = true.
Proof.
  intros Hab Hcb. destruct (lt a c) eqn:Hac; [reflexivity|].
  rewrite (lt_neg_trans a c b Hac Hcb) in Hab. discriminate.
Qed.

Lemma lt_trans (a b c : K) :
  lt a b = true -> lt b c = true -> lt a c = true.
Proof.
  intros Hab Hbc. apply lt_le_trans with (b := b); [exact Hab|].
  now apply lt_asym.
Qed.

(** [first_min_from m l] splits [m :: l]: every element before it has a
    greater key, no element after it has a smaller one. *)
Lemma first_min_from_split (l : list A) (m : A) :
  exists l1 l2,
    m :: l = l1 ++ first_min_from key lt m l :: l2 /\
    (forall u, In u l1 ->
       lt (key (first_min_from key lt m l)) (key u) = true) /\
    (forall u, In u l2 ->
       lt (key u) (key (first_min_from key lt m l)) = false).
Proof.
  revert m. induction l as [|x r IH]; intros m.
  - exists [], []. simpl. repeat split; intros u [].
  - cbn [first_min_from]. destruct (lt (key x) (key m)) eqn:Hxm.
    + destruct (IH x) as (l1 & l2 & E & H1 & H2).
      set (t := first_min_from key lt x r) in *.
      exists (m :: l1), l2. split; [simpl; now rewrite E|]. split; [|exact H2].
      intros u [<-|Hu]; [|now apply H1].
      destruct l1 as [|y l1]; simpl in E; injection E as E _.
      * now rewrite <- E.
      * subst y. apply lt_trans with (b := key x); [|exact Hxm].
        apply H1. now left.
    + destruct (IH m) as (l1 & l2 & E & H1 & H2).
      set (t := first_min_from key lt m r) in *.
      destruct l1 as [|y l1]; simpl in E; injection E as E E'.
      * exists [], (x :: l2). split; [simpl; now rewrite <- E, E'|].
        split; [intros u []|].
        intros u [<-|Hu]; [now rewrite <- E|now apply H2].
      * subst y. exists (m :: x :: l1), l2.
        split; [simpl; now rewrite E'|]. split; [|exact H2].
        assert (Htm : lt (key t) (key m) = true) by (apply H1; now left).
        intros u [<-|[<-|Hu]]; [exact Htm| |apply H1; now right].
        apply lt_le_trans with (b := key m); assumption.
Qed.
End SortedFacts.

Lemma tuple_lt_asym (a b : Z * string) :
  tuple_lt a b = true -> tuple_lt b a = false.
Proof.
  intros Hab. destruct (tuple_lt b a) eqn:Hba; [|reflexivity].
  apply tuple_lt_spec in Hab, Hba.
  destruct Hab as [H|[H1 H2]], Hba as [H'|[H1' H2']]; try lia.
  apply string_compare_gt_lt in H2'. congruence.
Qed.

(** ** Suggestion of the next task *)

Lemma next_task_cons (self : TodoAssistant) (m : Task) (r : list Task) :
  pending_tasks self = m :: r ->
  next_task self = Some (first_min_from sort_key tuple_lt m r).
Proof. unfold next_task. intros ->. apply hd_sorted. Qed.

(** C1, amended: on a non-empty set of pending tasks [suggest_next_task]
    answers with the pending task that is minimal under the lexicographic
    key (priority rank, due-date text), the first such task in insertion
    order: every pending task before it has a strictly greater key and no
    pending task after it has a smaller one.  The rank is urgent=0,
    high=1, medium=2, low=3 and 4 for any other priority; a due date that
    is absent or the empty string counts as "9999", any other due date as
    its own text.  For priorities [low, urgent, medium, urgent] with due
    dates [None, "Oct 5", "today", "Oct 1"] the urgent task due "Oct 1" is
    chosen. *)
Theorem suggest_next_first_minimal :
  (forall self : TodoAssistant,
      pending_tasks self <> [] ->
      exists t l1 l2,
        next_task self = Some t /\
        suggest_next_task self = Return (suggestion t (pending_tasks self)) /\
        pending_tasks self = l1 ++ t :: l2 /\
        (forall u, In u l1 -> tuple_lt (sort_key t) (sort_key u) = true) /\
        (forall u, In u l2 -> tuple_lt (sort_key u) (sort_key t) = false)) /\
  (forall a b : Z * string,
      tuple_lt a b = true <->
      fst a < fst b \/ (fst a = fst b /\ String.compare (snd a) (snd b) = Lt)) /\
  (forall t : Task,
      fst (sort_key t) = priority_order (priority t) /\
      (due_date t = None \/ due_date t = Some "" -> snd (sort_key t) = "9999") /\
      (forall d, due_date t = Some d -> d <> "" -> snd (sort_key t) = d)) /\
  (priority_order "urgent" = 0 /\ priority_order "high" = 1 /\
   priority_order "medium" = 2 /\ priority_order "low" = 3 /\
   forall p, p <> "urgent" -> p <> "high" -> p <> "medium" -> p <> "low" ->
             priority_order p = 4) /\
  (map priority (pending_tasks four_pending) = ["low"; "urgent"; "medium"; "urgent"] /\
   map due_date (pending_tasks four_pending)
     = [None; Some "Oct 5"; Some "today"; Some "Oct 1"] /\
   exists t, next_task four_pending = Some t /\
             nth_error (pending_tasks four_pending) 3 = Some t /\
             priority t = "urgent" /\ due_date t = Some "Oct 1").
Proof.
  split; [|split; [|split; [|split]]].
  - intros self Hne.
    destruct (pending_tasks self) as [|m r] eqn:E; [congruence|].
    destruct (first_min_from_split sort_key tuple_lt tuple_lt_asym
                tuple_lt_neg_trans r m) as (l1 & l2 & Hsplit & H1 & H2).
    exists (first_min_from sort_key tuple_lt m r), l1, l2.
    pose proof (next_task_cons self m r E) as Hn.
    split; [exact Hn|]. split; [|split; [exact Hsplit|split; assumption]].
    unfold suggest_next_task. rewrite Hn, E. reflexivity.
  - exact tuple_lt_spec.
  - intros t. unfold sort_key. simpl. split; [reflexivity|]. split.
    + intros [-> | ->]; reflexivity.
    + intros d -> Hd. destruct d; [congruence|reflexivity].
  - repeat split; try reflexivity.
    intros p H1 H2 H3 H4. unfold priority_order.
    apply String.eqb_neq in H1, H2, H3, H4. now rewrite H1, H2, H3, H4.
  - split; [reflexivity|]. split; [reflexivity|].
    eexists. split; [vm_compute; reflexivity|]. repeat split.
Qed.

Lemma suggest_next_first_minimal_witness :
  pending_tasks four_pending <> [] /\
  exists t l1 l2,
    next_task four_pending = Some t /\
    suggest_next_task four_pending
      = Return (suggestion t (pending_tasks four_pending)) /\
    pending_tasks four_pending = l1 ++ t :: l2 /\
    (forall u, In u l1 -> tuple_lt (sort_key t) (sort_key u) = true) /\
    (forall u, In u l2 -> tuple_lt (sort_key u) (sort_key t) = false).
Proof.
  assert (H : pending_tasks four_pending <> []) by (vm_compute; discriminate).
  split; [exact H|].
  exact (proj1 suggest_next_first_minimal four_pending H).
Defined.

(** C1 as stated fails when a due date is the empty string: the key with
    only the absent due date replaced by "9999" makes the task with the
    empty due date the smaller one, and the code chooses the other. *)
Lemma suggest_next_empty_due_counterexample :
  exists t u,
    next_task empty_due_store = Some t /\
    In u (pending_tasks empty_due_store) /\
    tuple_lt (key_absent_only u) (key_absent_only t) = true.
Proof.
  eexists. eexists. split; [vm_compute; reflexivity|].
  split; [left; reflexivity|]. vm_compute. reflexivity.
Qed.


(** C9: there is a store with two pending tasks of equal priority, one
    without due date and one due "today", where [suggest_next_task]
    chooses the undated one, although it was added last: the sentinel
    "9999" is below "today", and below every string that starts with a
    letter. *)
Theorem undated_precedes_today :
  (exists t1 t2,
      reachable undated_and_today /\
      pending_tasks undated_and_today = [t1; t2] /\
      priority t1 = priority t2 /\
      due_date t1 = Some "today" /\ due_date t2 = None /\
      next_task undated_and_today = Some t2 /\
      suggest_next_task undated_and_today
        = Return (suggestion t2 (pending_tasks undated_and_today))) /\
  PyStr.lt "9999" "today" = true /\
  (forall c s, is_ascii_letter c = true -> PyStr.lt "9999" (String c s) = true).
Proof.
  split; [|split].
  - eexists. eexists. split; [eexists; exists quiet; reflexivity|].
    split; [vm_compute; reflexivity|]. repeat split.
  - reflexivity.
  - intros c s H.
    destruct c as [[] [] [] [] [] [] [] []]; try discriminate H; reflexivity.
Qed.

Lemma undated_precedes_today_witness :
  is_ascii_letter "t" = true /\ PyStr.lt "9999" "today" = true.
Proof.
  split; [reflexivity|].
  apply (proj2 (proj2 undated_precedes_today) "t"%char "oday"). reflexivity.
Defined.

(** ** Sequences of calls: ids and the counter *)


Lemma run_cons (c : call) (cs : list call) (st : TodoAssistant * Env) :
  run (c :: cs) st = run cs (after c st).
Proof. reflexivity. Qed.

Lemma run_app (cs1 cs2 : list call) (st : TodoAssistant * Env) :
  run (cs1 ++ cs2) st = run cs2 (run cs1 st).
Proof. apply fold_left_app. Qed.

Lemma find_task_in (task_id : Z) (l : list Task) (i0 i : nat) (t : Task) :
  find_task task_id l i0 = Some (i, t) -> In t l /\ id t = task_id.
Proof.
  revert i0. induction l as [|x r IH]; intros i0; simpl; [discriminate|].
  destruct (Z.eqb_spec (id x) task_id) as [E|E].
  - intros [= <- <-]. auto.
  - intros H. apply IH in H. tauto.
Qed.

(** What a call does to the counter, and the id it assigns. *)
Lemma after_counter (c : call) (st : TodoAssistant * Env) :
  match assigned_id c st with
  | Some i => i = counter_of st /\ counter_of (after c st) = counter_of st + 1
  | None => counter_of (after c st) = counter_of st
  end.
Proof.
  destruct st as [self env]. destruct c; simpl; try reflexivity.
  - unfold counter_of. simpl. rewrite rev_unit. simpl. auto.
  - unfold after, counter_of, step, complete_task.
    destruct (find_task task_id (tasks self) 0) as [[i t]|]; [|reflexivity].
    destruct (String.eqb (status t) "completed"); reflexivity.
  - unfold after, counter_of, step, delete_task.
    destruct (find_task task_id (tasks self) 0) as [[i t]|]; reflexivity.
  - unfold after, counter_of, step, update_task_priority.
    destruct (find_task task_id (tasks self) 0) as [[i t]|]; reflexivity.
  - unfold after, counter_of, step, clear_completed_tasks.
    destruct (filter is_completed (tasks self)); reflexivity.
Qed.

Lemma after_counter_le (c : call) (st : TodoAssistant * Env) :
  counter_of st <= counter_of (after c st).
Proof.
  pose proof (after_counter c st) as H.
  destruct (assigned_id c st); lia.
Qed.

Lemma run_counter_le (cs : list call) (st : TodoAssistant * Env) :
  counter_of st <= counter_of (run cs st).
Proof.
  revert st. induction cs as [|c r IH]; intros st; [apply Z.le_refl|].
  rewrite run_cons. pose proof (after_counter_le c st). specialize (IH (after c st)).
  lia.
Qed.

Lemma assigned_ids_bounds (cs : list call) (st : TodoAssistant * Env) :
  StronglySorted Z.lt (assigned_ids cs st) /\
  Forall (fun i => counter_of st <= i < counter_of (run cs st)) (assigned_ids cs st).
Proof.
  revert st. induction cs as [|c r IH]; intros st; cbn [assigned_ids].
  - split; constructor.
  - destruct (IH (after c st)) as [S B]. rewrite run_cons.
    pose proof (after_counter c st) as H.
    pose proof (run_counter_le r (after c st)) as L.
    destruct (assigned_id c st) as [i|].
    + destruct H as [-> H]. split.
      * constructor; [exact S|].
        eapply Forall_impl; [|exact B]. simpl. intros a Ha. lia.
      * constructor; [lia|].
        eapply Forall_impl; [|exact B]. simpl. intros a Ha. lia.
    + split; [exact S|].
      eapply Forall_impl; [|exact B]. simpl. intros a Ha. lia.
Qed.

Lemma strongly_sorted_lt_nodup (l : list Z) : StronglySorted Z.lt l -> NoDup l.
Proof.
  induction 1 as [|a l S IH F]; constructor; [|exact IH].
  intros Hin. rewrite Forall_forall in F. specialize (F a Hin). lia.
Qed.

(** C3: along every sequence of calls from the empty store, the ids that
    [add_task] assigns are positive and strictly increasing in call order,
    hence never repeated, whatever deletions come in between; at every
    point of the sequence the counter is above every id assigned so far,
    deleted or not, and it never decreases afterwards. *)
Theorem ids_strictly_increasing (cs1 cs2 : list call) (env : Env) :
  let st0 := (empty_store, env) in
  let ids := assigned_ids (cs1 ++ cs2) st0 in
  StronglySorted Z.lt ids /\
  NoDup ids /\
  Forall (fun i => 0 < i) ids /\
  Forall (fun i => i < task_id_counter (fst (run cs1 st0))) (assigned_ids cs1 st0) /\
  Forall (fun i => i < task_id_counter (fst (run (cs1 ++ cs2) st0))) ids /\
  task_id_counter (fst (run cs1 st0))
    <= task_id_counter (fst (run (cs1 ++ cs2) st0)).
Proof.
  cbn zeta.
  destruct (assigned_ids_bounds (cs1 ++ cs2) (empty_store, env)) as [S B].
  destruct (assigned_ids_bounds cs1 (empty_store, env)) as [_ B1].
  unfold counter_of in B, B1. cbn [fst empty_store task_id_counter] in B, B1.
  split; [exact S|]. split; [now apply strongly_sorted_lt_nodup|].
  repeat split.
  - eapply Forall_impl; [|exact B]. cbn beta. intros a Ha. lia.
  - eapply Forall_impl; [|exact B1]. cbn beta. intros a Ha. lia.
  - eapply Forall_impl; [|exact B]. cbn beta. intros a Ha. lia.
  - rewrite run_app. apply (run_counter_le cs2).
Qed.

(** ** Status and completion time *)


Lemma Forall_set_nth (P : Task -> Prop) (i : nat) (t' : Task) (l : list Task) :
  P t' -> Forall P l -> Forall P (set_nth i t' l).
Proof.
  intros Ht. revert i. induction l as [|x r IH]; intros i H; [constructor|].
  inversion H; subst. destruct i; simpl; constructor; auto.
Qed.

Lemma Forall_pop_nth (P : Task -> Prop) (i : nat) (l : list Task) :
  Forall P l -> Forall P (pop_nth i l).
Proof.
  revert i. induction l as [|x r IH]; intros i H; [constructor|].
  inversion H; subst. destruct i; simpl; [assumption|]. constructor; auto.
Qed.

Lemma Forall_filter (P : Task -> Prop) (p : Task -> bool) (l : list Task) :
  Forall P l -> Forall P (filter p l).
Proof.
  rewrite !Forall_forall. intros H x Hx. apply filter_In in Hx. apply H, Hx.
Qed.

(** A property of tasks that new tasks have and that completion and a
    change of priority preserve holds in every state of a run. *)
Section TaskInvariant.
Variable P : Task -> Prop.
Variable ok : call -> Prop.

Hypothesis P_add : forall now d p due n,
  ok (AddTask now d p due) ->
  P (mkTask n d (PyStr.lower p) "pending" now due None).
Hypothesis P_complete : forall t now,
  P t -> status t <> "completed" ->
  P (mkTask (id t) (description t) (priority t) "completed" (created_at t)
            (due_date t) (Some now)).
Hypothesis P_priority : forall t p,
  P t ->
  P (mkTask (id t) (description t) p (status t) (created_at t) (due_date t)
            (completed_at t)).

Lemma after_invariant (c : call) (st : TodoAssistant * Env) :
  ok c -> Forall P (tasks (fst st)) -> Forall P (tasks (fst (after c st))).
Proof.
  destruct st as [self env]. intros Hc H. destruct c; simpl; try exact H.
  - apply Forall_app. split; [exact H|]. constructor; [|constructor].
    now apply P_add.
  - unfold after, step, complete_task.
    destruct (find_task task_id (tasks self) 0) as [[i t]|] eqn:F; [|exact H].
    destruct (String.eqb_spec (status t) "completed") as [E|E]; [exact H|].
    simpl. apply Forall_set_nth; [|exact H].
    apply find_task_in in F. rewrite Forall_forall in H.
    apply P_complete; [apply H, F|exact E].
  - unfold after, step, delete_task.
    destruct (find_task task_id (tasks self) 0) as [[i t]|] eqn:F; [|exact H].
    simpl. now apply Forall_pop_nth.
  - unfold after, step, update_task_priority.
    destruct (find_task task_id (tasks self) 0) as [[i t]|] eqn:F; [|exact H].
    simpl. apply Forall_set_nth; [|exact H].
    apply find_task_in in F. rewrite Forall_forall in H.
    apply P_priority, H, F.
  - unfold after, step, clear_completed_tasks.
    destruct (filter is_completed (tasks self)); [exact H|].
    simpl. now apply Forall_filter.
Qed.

Lemma run_invariant (cs : list call) (st : TodoAssistant * Env) :
  Forall ok cs -> Forall P (tasks (fst st)) -> Forall P (tasks (fst (run cs st))).
Proof.
  revert st. induction cs as [|c r IH]; intros st Hcs H; [exact H|].
  inversion Hcs; subst. rewrite run_cons. apply IH; [assumption|].
  now apply after_invariant.
Qed.
End TaskInvariant.

Lemma reachable_coupled (self : TodoAssistant) :
  reachable self -> Forall coupled (tasks self).
Proof.
  intros (cs & env & <-).
  apply (run_invariant coupled (fun _ => True)).
  - intros now d p due n _. unfold coupled. simpl. split; [discriminate|congruence].
  - intros t now _ _. unfold coupled. simpl. split; [discriminate|reflexivity].
  - intros t p H. exact H.
  - apply Forall_forall. intros; exact I.
  - constructor.
Qed.

Lemma nth_error_set_nth (i : nat) (t' : Task) (l : list Task) (i0 : nat)
    (task_id : Z) (t : Task) :
  find_task task_id l i0 = Some (i, t) ->
  (i0 <= i)%nat /\ nth_error l (i - i0) = Some t /\
  nth_error (set_nth (i - i0) t' l) (i - i0) = Some t'.
Proof.
  revert i0. induction l as [|x r IH]; intros i0; simpl; [discriminate|].
  destruct (id x =? task_id).
  - intros [= <- <-]. rewrite Nat.sub_diag. simpl. auto.
  - intros H. apply IH in H. destruct H as (L & H1 & H2).
    replace (i - i0)%nat with (S (i - S i0)) by lia. simpl. split; [lia|auto].
Qed.

Lemma already_not_success (t t' : Task) (remaining : Z) :
  already_completed_message t <> completed_message t' remaining.
Proof.
  unfold already_completed_message, completed_message.
  destruct (remaining =? 0); [|destruct (remaining =? 1)]; simpl; discriminate.
Qed.

(** C4: in every state reachable from the empty store a task's status is
    "completed" exactly when its [completed_at] is set; [complete_task] on
    a task that is not completed (a pending one) sets its status to
    "completed" and its [completed_at] to the current time and answers
    with the success message; on a completed task it changes nothing and
    answers with the already-done message, which is never a success
    message. *)
Theorem status_completed_at_coupling :
  (forall self t, reachable self -> In t (tasks self) ->
     (status t = "completed" <-> completed_at t <> None)) /\
  (forall self env now task_id i t,
     find_task task_id (tasks self) 0 = Some (i, t) ->
     status t <> "completed" ->
     exists t' self' env' remaining,
       complete_task self env now task_id
         = (completed_message t' remaining, self', env') /\
       nth_error (tasks self) i = Some t /\
       nth_error (tasks self') i = Some t' /\
       status t' = "completed" /\ completed_at t' = Some now /\
       id t' = id t /\ description t' = description t /\
       priority t' = priority t /\ created_at t' = created_at t /\
       due_date t' = due_date t) /\
  (forall self env now task_id i t,
     find_task task_id (tasks self) 0 = Some (i, t) ->
     status t = "completed" ->
     complete_task self env now task_id = (already_completed_message t, self, env) /\
     forall t' remaining,
       already_completed_message t <> completed_message t' remaining).
Proof.
  split; [|split].
  - intros self t R Hin. apply reachable_coupled in R.
    rewrite Forall_forall in R. exact (R t Hin).
  - intros self env now task_id i t F Hs.
    unfold complete_task. rewrite F.
    apply String.eqb_neq in Hs. rewrite Hs.
    pose proof (nth_error_set_nth i
      (mkTask (id t) (description t) (priority t) "completed" (created_at t)
              (due_date t) (Some now)) _ _ _ _ F) as (_ & H1 & H2).
    rewrite Nat.sub_0_r in H1, H2.
    eexists. eexists. eexists. eexists. split; [reflexivity|].
    split; [exact H1|]. split; [exact H2|]. simpl. repeat split.
  - intros self env now task_id i t F Hs. split.
    + unfold complete_task. rewrite F.
      apply String.eqb_eq in Hs. now rewrite Hs.
    + intros t' remaining. apply already_not_success.
Qed.

Lemma status_completed_at_coupling_witness :
  (forall t, In t (tasks one_done) ->
     (status t = "completed" <-> completed_at t <> None)) /\
  (exists t' self' env' remaining,
     complete_task one_pending quiet "2025-10-01 10:30" 1
       = (completed_message t' remaining, self', env') /\
     status t' = "completed" /\ completed_at t' = Some "2025-10-01 10:30") /\
  complete_task one_done quiet "2025-10-01 11:00" 1
    = (already_completed_message
         (mkTask 1 "buy milk" "high" "completed" "2025-10-01 09:00" None
                 (Some "2025-10-01 10:30")),
       one_done, quiet).
Proof.
  destruct status_completed_at_coupling as (H1 & H2 & H3).
  split; [|split].
  - intros t Hin. apply (H1 one_done t); [|exact Hin].
    eexists. exists quiet. reflexivity.
  - destruct (H2 one_pending quiet "2025-10-01 10:30" 1 0%nat
                (mkTask 1 "buy milk" "high" "pending" "2025-10-01 09:00" None None))
      as (t' & self' & env' & remaining & E & _ & _ & Hs & Hc & _).
    + reflexivity.
    + discriminate.
    + exists t', self', env', remaining. auto.
  - apply (H3 one_done quiet "2025-10-01 11:00" 1 0%nat); reflexivity.
Defined.

(** ** Descriptions *)

(** C7, amended: [add_task] stores the description it is given, unchanged
    and unchecked; in every state reached from the empty store by calls
    whose [add_task] descriptions are all non-empty, every task's
    description is non-empty. *)
Theorem descriptions_as_given :
  (forall self env now d p due,
     let '(_, self', _) := add_task self env now d p due in
     exists t, tasks self' = tasks self ++ [t] /\ description t = d) /\
  (forall cs env,
     Forall nonempty_description cs ->
     Forall (fun t => description t <> "")
            (tasks (fst (run cs (empty_store, env))))).
Proof.
  split.
  - intros self env now d p due. simpl. eexists. split; reflexivity.
  - intros cs env Hcs.
    apply (run_invariant (fun t => description t <> "") nonempty_description).
    + intros now d p due n H. exact H.
    + intros t now H _. exact H.
    + intros t p H. exact H.
    + exact Hcs.
    + constructor.
Qed.

Lemma descriptions_as_given_witness :
  Forall nonempty_description [ AddTask "2025-10-01 09:00" "buy milk" "high" None ] /\
  Forall (fun t => description t <> "") (tasks one_pending).
Proof.
  assert (H : Forall nonempty_description
                [ AddTask "2025-10-01 09:00" "buy milk" "high" None ]).
  { constructor; [discriminate|constructor]. }
  split; [exact H|].
  exact (proj2 descriptions_as_given _ quiet H).
Defined.

(** C7 as stated fails: after [add_task] with the empty string, a state
    reachable from the empty store holds a task with an empty
    description. *)
Lemma empty_description_counterexample :
  reachable empty_description_store /\
  exists t, In t (tasks empty_description_store) /\ description t = "".
Proof.
  split.
  - eexists. exists quiet. reflexivity.
  - eexists. split; [left; reflexivity|reflexivity].
Qed.

(** ** Listing *)

Lemma fold_filter_step (p : Task -> bool) (step : list Task -> Task -> list Task)
    (l acc : list Task) :
  (forall acc t, step acc t = if p t then acc ++ [t] else acc) ->
  fold_left step l acc = acc ++ filter p l.
Proof.
  intros Hs. revert acc. induction l as [|x r IH]; intros acc; simpl.
  - now rewrite app_nil_r.
  - rewrite IH, Hs. destruct (p x); [|reflexivity].
    now rewrite <- app_assoc.
Qed.

Lemma append_nil_r (s : string) : (s ++ "")%string = s.
Proof. induction s as [|c s IH]; simpl; [reflexivity|now rewrite IH]. Qed.

Lemma append_assoc (a b c : string) :
  ((a ++ b) ++ c)%string = (a ++ (b ++ c))%string.
Proof. induction a as [|x a IH]; simpl; [reflexivity|now rewrite IH]. Qed.

Lemma fold_lines (l : list Task) (acc : string) :
  fold_left (fun r task => (r ++ list_line task)%string) l acc
  = (acc ++ join (map list_line l))%string.
Proof.
  revert acc. induction l as [|x r IH]; intros acc; simpl.
  - now rewrite append_nil_r.
  - rewrite IH. apply append_assoc.
Qed.

(** C5: the "pending", "completed", "high-priority" and "today" filters
    keep exactly the tasks with status pending, with status completed,
    with priority high or urgent, and with a due date equal to the text
    "today" or to the current date as YYYY-MM-DD, in the order of the
    store; the listing has one line per kept task in that order, and the
    footer counts the total, the pending and the completed tasks over all
    tasks of the store, not over the kept ones. *)
Theorem list_filters_exact (self : TodoAssistant) (today : string) :
  filtered_tasks self today "pending"
    = filter (fun t => String.eqb (status t) "pending") (tasks self) /\
  filtered_tasks self today "completed"
    = filter (fun t => String.eqb (status t) "completed") (tasks self) /\
  filtered_tasks self today "high-priority"
    = filter (fun t => String.eqb (priority t) "high"
                       || String.eqb (priority t) "urgent") (tasks self) /\
  filtered_tasks self today "today"
    = filter (fun t => match due_date t with
                       | Some d => String.eqb d "today" || String.eqb d today
                       | None => false
                       end) (tasks self) /\
  (forall t, In t (filtered_tasks self today "today") <->
             In t (tasks self) /\
             (due_date t = Some "today" \/ due_date t = Some today)) /\
  (forall filter_by,
     list_tasks self today filter_by =
     match tasks self with
     | [] => "Your to-do list is empty! What would you like to accomplish today?"
     | _ :: _ =>
         match filtered_tasks self today filter_by with
         | [] => "No " ++ filter_by ++ " tasks found."
         | _ :: _ =>
             ("Here are your " ++ filter_by ++ " tasks:" ++ nl ++ nl)
             ++ join (map list_line (filtered_tasks self today filter_by))
             ++ nl ++ "📊 Total: "
             ++ PyStr.of_int (Z.of_nat (List.length (tasks self)))
             ++ " tasks ("
             ++ PyStr.of_int
                  (Z.of_nat (List.length
                     (filter (fun t => String.eqb (status t) "pending") (tasks self))))
             ++ " pending, "
             ++ PyStr.of_int
                  (Z.of_nat (List.length
                     (filter (fun t => String.eqb (status t) "completed") (tasks self))))
             ++ " completed)"
         end
     end%string).
Proof.
  assert (Htoday : filtered_tasks self today "today"
    = filter (fun t => match due_date t with
                       | Some d => String.eqb d "today" || String.eqb d today
                       | None => false
                       end) (tasks self)).
  { unfold filtered_tasks. rewrite fold_filter_step with
      (p := fun t => match due_date t with
                     | Some d => String.eqb d "today" || String.eqb d today
                     | None => false
                     end); [reflexivity|].
    intros acc t. unfold list_filter_step, PyStr.opt_in2. simpl.
    destruct (due_date t); [|reflexivity].
    now destruct (String.eqb s "today" || String.eqb s today). }
  split; [|split; [|split; [|split; [|split]]]].
  - unfold filtered_tasks. rewrite fold_filter_step with
      (p := fun t => String.eqb (status t) "pending"); [reflexivity|].
    intros acc t. unfold list_filter_step. simpl.
    now destruct (String.eqb (status t) "pending").
  - unfold filtered_tasks. rewrite fold_filter_step with
      (p := fun t => String.eqb (status t) "completed"); [reflexivity|].
    intros acc t. unfold list_filter_step. simpl.
    now destruct (String.eqb (status t) "completed").
  - unfold filtered_tasks. rewrite fold_filter_step with
      (p := fun t => String.eqb (priority t) "high"
                     || String.eqb (priority t) "urgent"); [reflexivity|].
    intros acc t. unfold list_filter_step. simpl.
    now destruct (String.eqb (priority t) "high" || String.eqb (priority t) "urgent").
  - exact Htoday.
  - intros t. rewrite Htoday, filter_In. split.
    + intros [Hin H]. split; [exact Hin|].
      destruct (due_date t) as [d|]; [|discriminate].
      apply orb_true_iff in H. destruct H as [H|H]; apply String.eqb_eq in H;
        subst; auto.
    + intros [Hin Hd]. split; [exact Hin|].
      destruct Hd as [-> | ->]; [reflexivity|].
      rewrite (String.eqb_refl today). apply orb_true_r.
  - intros filter_by.
    unfold list_tasks. destruct (tasks self) as [|t0 r] eqn:E; [reflexivity|].
    destruct (filtered_tasks self today filter_by) as [|f fr] eqn:F; [reflexivity|].
    rewrite fold_lines. unfold list_footer, count_if, PyStr.of_len, is_pending,
      is_completed. rewrite E.
    rewrite !append_assoc. reflexivity.
Qed.

(** ** Loading and saving *)

(** C6: when [tasks.json] is missing, or reading or parsing it raises,
    construction returns normally with the empty task list and counter 1;
    the file is left as it was, and the only trace of a failure is the
    printed line "Could not load tasks: ...". *)
Theorem load_failure_gives_empty_store (env : Env) :
  (file env = Missing -> init env = Some (mkStore [] 1, env)) /\
  (forall e, file env = Unreadable e ->
     init env = Some (mkStore [] 1, print ("Could not load tasks: " ++ e) env) /\
     file (print ("Could not load tasks: " ++ e) env) = file env /\
     stdout (print ("Could not load tasks: " ++ e) env)
       = stdout env ++ [("Could not load tasks: " ++ e)%string]).
Proof.
  split.
  - intros H. unfold init, load_tasks. rewrite H. reflexivity.
  - intros e H. split; [|split; reflexivity].
    unfold init, load_tasks. rewrite H. reflexivity.
Qed.

Lemma load_failure_gives_empty_store_witness :
  init (mkEnv Missing None []) = Some (mkStore [] 1, mkEnv Missing None []) /\
  init (mkEnv (Unreadable "Expecting value: line 1 column 1 (char 0)") None [])
    = Some (mkStore [] 1,
            mkEnv (Unreadable "Expecting value: line 1 column 1 (char 0)") None
                  ["Could not load tasks: Expecting value: line 1 column 1 (char 0)"]).
Proof.
  split.
  - apply (proj1 (load_failure_gives_empty_store (mkEnv Missing None []))).
    reflexivity.
  - apply (proj1 (proj2 (load_failure_gives_empty_store
                    (mkEnv (Unreadable "Expecting value: line 1 column 1 (char 0)")
                           None []))
                 "Expecting value: line 1 column 1 (char 0)" eq_refl)).
Defined.

Lemma to_task_of_task (t : Task) : Json.to_task (Json.of_task t) = Some t.
Proof. destruct t as [i d p s c [du|] [co|]]; reflexivity. Qed.

Lemma to_tasks_list_of_tasks (ts : list Task) :
  Json.to_tasks_list (map Json.of_task ts) = Some ts.
Proof.
  induction ts as [|t r IH]; [reflexivity|].
  cbn [map Json.to_tasks_list]. now rewrite to_task_of_task, IH.
Qed.

(** C8: when the file can be written, saving a store and constructing a
    fresh store from the saved file gives back the same task list, in the
    same order, and the same counter. *)
Theorem save_then_load_identity (self : TodoAssistant) (env : Env) :
  write_error env = None ->
  init (save_tasks self env) = Some (self, save_tasks self env).
Proof.
  intros W. unfold init, load_tasks, save_tasks. rewrite W.
  cbn [file write_file path_exists open_and_load dump data_get Json.lookup
       String.eqb Ascii.eqb Bool.eqb Json.to_tasks].
  rewrite to_tasks_list_of_tasks. simpl. now destruct self.
Qed.

Lemma save_then_load_identity_witness :
  write_error quiet = None /\
  init (save_tasks four_pending quiet) = Some (four_pending, save_tasks four_pending quiet).
Proof.
  split; [reflexivity|]. apply save_then_load_identity. reflexivity.
Defined.

(** C10: a file that parses to an object with a "tasks" list and no
    "next_id" field loads its tasks and leaves the counter at 1; the
    counter can then be at or below the id of a loaded task, and the next
    [add_task] assigns an id that a loaded task already has. *)
Theorem load_without_next_id :
  (forall env kvs ts,
     file env = Parsed (JObj kvs) ->
     Json.lookup "tasks" kvs = Some (JArr (map Json.of_task ts)) ->
     Json.lookup "next_id" kvs = None ->
     init env = Some (mkStore ts 1, env)) /\
  (exists env self env',
     file env = Parsed file_without_next_id /\
     init env = Some (self, env') /\
     (exists t, In t (tasks self) /\ task_id_counter self <= id t) /\
     forall now d p due,
       let '(_, self', _) := add_task self env' now d p due in
       exists t1 t2, tasks self' = [t1; t2] /\ id t1 = id t2).
Proof.
  split.
  - intros env kvs ts Hf Ht Hn. unfold init, load_tasks. rewrite Hf.
    cbn [path_exists open_and_load data_get]. rewrite Ht, Hn.
    cbn [Json.to_tasks]. rewrite to_tasks_list_of_tasks. reflexivity.
  - exists (mkEnv (Parsed file_without_next_id) None []).
    eexists. eexists. split; [reflexivity|]. split; [reflexivity|]. split.
    + eexists. split; [left; reflexivity|]. simpl. lia.
    + intros now d p due. simpl. eexists. eexists. split; reflexivity.
Qed.

Lemma load_without_next_id_witness :
  init (mkEnv (Parsed file_without_next_id) None [])
  = Some (mkStore [mkTask 1 "buy milk" "high" "pending" "2025-10-01 09:00" None None] 1,
          mkEnv (Parsed file_without_next_id) None []).
Proof.
  apply (proj1 load_without_next_id
           (mkEnv (Parsed file_without_next_id) None [])
           [("tasks",
             JArr [ Json.of_task (mkTask 1 "buy milk" "high" "pending"
                                    "2025-10-01 09:00" None None) ])]
           [mkTask 1 "buy milk" "high" "pending" "2025-10-01 09:00" None None]);
    reflexivity.
Defined.

(** * Further properties of the store *)

(** ** Finding a task by id *)

Lemma find_task_none (task_id : Z) (l : list Task) (i0 : nat) :
  find_task task_id l i0 = None <-> Forall (fun u => id u <> task_id) l.
Proof.
  revert i0. induction l as [|x r IH]; intros i0; simpl.
  - split; [constructor|reflexivity].
  - destruct (Z.eqb_spec (id x) task_id) as [E|E].
    + split; [discriminate|]. intros H. inversion H; subst. contradiction.
    + rewrite IH. split; [now constructor|]. intros H. now inversion H.
Qed.

Lemma find_task_first (task_id : Z) (l1 l2 : list Task) (t : Task) (i0 : nat) :
  id t = task_id -> Forall (fun u => id u <> task_id) l1 ->
  find_task task_id (l1 ++ t :: l2) i0 = Some ((i0 + List.length l1)%nat, t).
Proof.
  intros Ht. revert i0. induction l1 as [|x r IH]; intros i0 H; simpl.
  - apply Z.eqb_eq in Ht. rewrite Ht. now rewrite Nat.add_0_r.
  - inversion H; subst. apply Z.eqb_neq in H2. rewrite H2.
    rewrite IH by assumption. f_equal. f_equal. lia.
Qed.

Lemma find_task_split (task_id : Z) (l : list Task) (i0 i : nat) (t : Task) :
  find_task task_id l i0 = Some (i, t) ->
  exists l1 l2,
    l = l1 ++ t :: l2 /\ i = (i0 + List.length l1)%nat /\ id t = task_id /\
    Forall (fun u => id u <> task_id) l1.
Proof.
  revert i0. induction l as [|x r IH]; intros i0; simpl; [discriminate|].
  destruct (Z.eqb_spec (id x) task_id) as [E|E].
  - intros [= <- <-]. exists [], r. simpl. rewrite Nat.add_0_r. auto.
  - intros H. destruct (IH _ H) as (l1 & l2 & -> & -> & Ht & F).
    exists (x :: l1), l2. simpl. repeat split; auto; lia.
Qed.

Lemma set_nth_app (l1 l2 : list Task) (t t' : Task) :
  set_nth (List.length l1) t' (l1 ++ t :: l2) = l1 ++ t' :: l2.
Proof. induction l1 as [|x r IH]; simpl; [reflexivity|now rewrite IH]. Qed.

Lemma pop_nth_app (l1 l2 : list Task) (t : Task) :
  pop_nth (List.length l1) (l1 ++ t :: l2) = l1 ++ l2.
Proof. induction l1 as [|x r IH]; simpl; [reflexivity|now rewrite IH]. Qed.

(** ** [delete_task] *)



(** ** [update_task_priority] *)



(** ** [complete_task] *)


Lemma count_if_cons (p : Task -> bool) (t : Task) (l : list Task) :
  count_if p (t :: l) = (if p t then 1 else 0) + count_if p l.
Proof.
  unfold count_if. simpl. destruct (p t); [|reflexivity].
  cbn [List.length]. rewrite Nat2Z.inj_succ. lia.
Qed.



(** ** Ids of the stored tasks *)

Lemma sorted_ids_snoc (l : list Task) (t : Task) :
  StronglySorted Z.lt (map id l) -> Forall (fun u => id u < id t) l ->
  StronglySorted Z.lt (map id (l ++ [t])).
Proof.
  induction l as [|x r IH]; intros S F; simpl.
  - repeat constructor.
  - inversion S; subst. inversion F; subst. constructor; [now apply IH|].
    rewrite map_app. apply Forall_app. split; [assumption|].
    simpl. repeat constructor. assumption.
Qed.

Lemma sorted_ids_filter (p : Task -> bool) (l : list Task) :
  StronglySorted Z.lt (map id l) -> StronglySorted Z.lt (map id (filter p l)).
Proof.
  induction l as [|x r IH]; intros S; simpl; [constructor|].
  inversion S; subst. destruct (p x); [|now apply IH].
  simpl. constructor; [now apply IH|].
  rewrite Forall_forall in *. intros i Hi. apply H2.
  apply in_map_iff in Hi. destruct Hi as (u & <- & Hu).
  apply filter_In in Hu. apply in_map. tauto.
Qed.

Lemma sorted_ids_remove (l1 l2 : list Task) (t : Task) :
  StronglySorted Z.lt (map id (l1 ++ t :: l2)) ->
  StronglySorted Z.lt (map id (l1 ++ l2)).
Proof.
  induction l1 as [|x r IH]; simpl; intros S; inversion S; subst; [assumption|].
  constructor; [now apply IH|].
  rewrite map_app in *. simpl in H2. apply Forall_app in H2. destruct H2 as [A B].
  apply Forall_app. split; [assumption|]. now inversion B.
Qed.

Lemma strongly_sorted_tail (l1 l2 : list Z) :
  StronglySorted Z.lt (l1 ++ l2) -> StronglySorted Z.lt l2.
Proof.
  induction l1 as [|x r IH]; simpl; intros S; [assumption|].
  inversion S; subst. now apply IH.
Qed.

Lemma Forall_remove (P : Task -> Prop) (l1 l2 : list Task) (t : Task) :
  Forall P (l1 ++ t :: l2) -> Forall P (l1 ++ l2).
Proof.
  rewrite !Forall_app. intros [A B]. split; [assumption|]. now inversion B.
Qed.

Lemma Forall_replace (P : Task -> Prop) (l1 l2 : list Task) (t t' : Task) :
  P t' -> Forall P (l1 ++ t :: l2) -> Forall P (l1 ++ t' :: l2).
Proof.
  rewrite !Forall_app. intros Ht [A B]. split; [assumption|].
  inversion B; subst. now constructor.
Qed.

Lemma map_id_replace (l1 l2 : list Task) (t t' : Task) :
  id t' = id t -> map id (l1 ++ t' :: l2) = map id (l1 ++ t :: l2).
Proof. intros E. rewrite !map_app. simpl. now rewrite E. Qed.

Lemma after_ids_ok (c : call) (st : TodoAssistant * Env) :
  ids_ok (fst st) /\ 0 < task_id_counter (fst st) ->
  ids_ok (fst (after c st)) /\ 0 < task_id_counter (fst (after c st)).
Proof.
  destruct st as [self env]. cbn [fst]. intros [[S B] P].
  destruct c; unfold after, step;
    try (cbn [fst snd]; split; [split|]; assumption).
  - (* add_task *)
    cbn. split; [split|lia].
    + apply sorted_ids_snoc; [assumption|].
      eapply Forall_impl; [|exact B]. cbn. intros u Hu. lia.
    + apply Forall_app. split.
      * eapply Forall_impl; [|exact B]. cbn. intros u Hu. lia.
      * repeat constructor; cbn; lia.
  - (* complete_task *)
    unfold complete_task.
    destruct (find_task task_id (tasks self) 0) as [[i t]|] eqn:F.
    2:{ cbn [fst snd]; split; [split|]; assumption. }
    destruct (String.eqb (status t) "completed"); [cbn [fst snd]; split; [split|]; assumption|].
    destruct (find_task_split _ _ _ _ _ F) as (l1 & l2 & E & -> & _ & _).
    cbn [fst snd]. unfold ids_ok, set_tasks. cbn [tasks task_id_counter].
    rewrite E in *. cbn [Nat.add]. rewrite set_nth_app.
    split; [split|assumption].
    + rewrite map_id_replace with (t := t); [assumption|reflexivity].
    + eapply Forall_replace; [|exact B]. cbn.
      apply Forall_app in B. destruct B as [_ B]. now inversion B.
  - (* delete_task *)
    unfold delete_task.
    destruct (find_task task_id (tasks self) 0) as [[i t]|] eqn:F;
      [|cbn [fst snd]; split; [split|]; assumption].
    destruct (find_task_split _ _ _ _ _ F) as (l1 & l2 & E & -> & _ & _).
    cbn [fst snd]. unfold ids_ok, set_tasks. cbn [tasks task_id_counter].
    rewrite E in *. cbn [Nat.add]. rewrite pop_nth_app.
    split; [split|assumption].
    + eapply sorted_ids_remove; eassumption.
    + eapply Forall_remove; eassumption.
  - (* update_task_priority *)
    unfold update_task_priority.
    destruct (find_task task_id (tasks self) 0) as [[i t]|] eqn:F;
      [|cbn [fst snd]; split; [split|]; assumption].
    destruct (find_task_split _ _ _ _ _ F) as (l1 & l2 & E & -> & _ & _).
    cbn [fst snd]. unfold ids_ok, set_tasks. cbn [tasks task_id_counter].
    rewrite E in *. cbn [Nat.add]. rewrite set_nth_app.
    split; [split|assumption].
    + rewrite map_id_replace with (t := t); [assumption|reflexivity].
    + eapply Forall_replace; [|exact B]. cbn.
      apply Forall_app in B. destruct B as [_ B]. now inversion B.
  - (* clear_completed_tasks *)
    unfold clear_completed_tasks.
    destruct (filter is_completed (tasks self)); [cbn [fst snd]; split; [split|]; assumption|].
    cbn [fst snd]. unfold ids_ok, set_tasks. cbn [tasks task_id_counter].
    split; [split|assumption].
    + now apply sorted_ids_filter.
    + now apply Forall_filter.
Qed.

Lemma run_ids_ok (cs : list call) (st : TodoAssistant * Env) :
  ids_ok (fst st) /\ 0 < task_id_counter (fst st) ->
  ids_ok (fst (run cs st)) /\ 0 < task_id_counter (fst (run cs st)).
Proof.
  revert st. induction cs as [|c r IH]; intros st H; [exact H|].
  rewrite run_cons. apply IH. now apply after_ids_ok.
Qed.

Lemma reachable_ids_ok (self : TodoAssistant) :
  reachable self -> ids_ok self /\ 0 < task_id_counter self.
Proof.
  intros (cs & env & <-). apply run_ids_ok. cbn. split; [|lia].
  split; constructor.
Qed.

(** X4: in every state reachable from the empty store the stored tasks
    are in the order of their ids, strictly increasing, so no two stored
    tasks share an id; every stored id is at least 1 and below the
    counter. *)
Theorem stored_ids_distinct (self : TodoAssistant) :
  reachable self ->
  StronglySorted Z.lt (map id (tasks self)) /\
  NoDup (map id (tasks self)) /\
  Forall (fun t => 0 < id t < task_id_counter self) (tasks self).
Proof.
  intros R. destruct (reachable_ids_ok self R) as [[S B] _].
  split; [exact S|]. split; [now apply strongly_sorted_lt_nodup|exact B].
Qed.

Lemma stored_ids_distinct_witness :
  reachable three_tasks /\ NoDup (map id (tasks three_tasks)).
Proof.
  assert (R : reachable three_tasks) by (eexists; exists quiet; reflexivity).
  split; [exact R|]. exact (proj1 (proj2 (stored_ids_distinct three_tasks R))).
Defined.

(** X5: in a state reachable from the empty store, after [delete_task]
    no stored task has the deleted id any more, and every task with
    another id is still stored. *)
Theorem delete_task_id_gone (self : TodoAssistant) (env : Env) (task_id : Z) :
  reachable self ->
  Forall (fun u => id u <> task_id)
         (tasks (snd (fst (delete_task self env task_id)))) /\
  (forall u, In u (tasks self) -> id u <> task_id ->
             In u (tasks (snd (fst (delete_task self env task_id))))).
Proof.
  intros R. destruct (reachable_ids_ok self R) as [[S _] _].
  unfold delete_task.
  destruct (find_task task_id (tasks self) 0) as [[i t]|] eqn:F.
  - destruct (find_task_split _ _ _ _ _ F) as (l1 & l2 & E & -> & Ht & F1).
    cbn [fst snd]. unfold set_tasks. cbn [tasks]. rewrite E in *.
    cbn [Nat.add]. rewrite pop_nth_app. split.
    + apply Forall_app. split; [exact F1|].
      rewrite map_app in S. simpl in S.
      apply strongly_sorted_tail in S. inversion S; subst.
      rewrite Forall_forall in *. intros u Hu.
      specialize (H2 (id u) (in_map id _ _ Hu)). lia.
    + intros u Hu Hne. apply in_app_iff in Hu. apply in_app_iff.
      destruct Hu as [Hu|[<-|Hu]]; [now left|contradiction|now right].
  - cbn [fst snd]. split; [|auto].
    now apply (find_task_none task_id (tasks self) 0).
Qed.

Lemma delete_task_id_gone_witness :
  reachable three_tasks /\
  Forall (fun u => id u <> 2) (tasks (snd (fst (delete_task three_tasks quiet 2)))).
Proof.
  assert (R : reachable three_tasks) by (eexists; exists quiet; reflexivity).
  split; [exact R|]. exact (proj1 (delete_task_id_gone three_tasks quiet 2 R)).
Defined.

(** ** [clear_completed_tasks] *)

Lemma filter_none_negb (p : Task -> bool) (l : list Task) :
  filter p l = [] -> filter (fun t => negb (p t)) l = l.
Proof.
  induction l as [|x r IH]; simpl; [reflexivity|].
  destruct (p x); [discriminate|]. intros H. simpl. now rewrite IH.
Qed.

Lemma filter_negb_none (p : Task -> bool) (l : list Task) :
  filter p (filter (fun t => negb (p t)) l) = [].
Proof.
  induction l as [|x r IH]; simpl; [reflexivity|].
  destruct (p x) eqn:E; simpl; [assumption|]. now rewrite E.
Qed.

(** X6: [clear_completed_tasks] keeps exactly the tasks whose status is
    not "completed", in their order, and keeps the counter; it reports how
    many it removed ("task" for one, "tasks" otherwise), or that there was
    nothing to clear.  A second call right after finds nothing to clear
    and changes neither the store nor the file. *)
Theorem clear_completed_twice (self : TodoAssistant) (env : Env) :
  let '(r1, self1, env1) := clear_completed_tasks self env in
  let n := Z.of_nat (List.length (filter is_completed (tasks self))) in
  tasks self1
    = filter (fun t => negb (String.eqb (status t) "completed")) (tasks self) /\
  task_id_counter self1 = task_id_counter self /\
  Forall (fun t => status t <> "completed") (tasks self1) /\
  r1 = (if (n =? 0)%Z then "No completed tasks to clear."
        else "Cleared " ++ PyStr.of_int n ++ " completed task"
             ++ (if (n =? 1)%Z then "" else "s") ++ ". Fresh start! 🧹")%string /\
  clear_completed_tasks self1 env1
    = ("No completed tasks to clear.", self1, env1).
Proof.
  unfold clear_completed_tasks.
  destruct (filter is_completed (tasks self)) as [|c0 cr] eqn:E.
  - cbn zeta. split; [|split; [reflexivity|split; [|split; [reflexivity|]]]].
    + symmetry. now apply (filter_none_negb is_completed).
    + apply Forall_forall. intros t Hin Hs.
      assert (In t (filter is_completed (tasks self))).
      { apply filter_In. split; [exact Hin|]. unfold is_completed. now rewrite Hs. }
      rewrite E in H. contradiction.
    + now rewrite E.
  - cbn zeta. cbn [tasks task_id_counter set_tasks].
    split; [reflexivity|]. split; [reflexivity|]. split; [|split].
    + apply Forall_forall. intros t Hin Hs. apply filter_In in Hin.
      destruct Hin as [_ Hn]. unfold is_completed in Hn. rewrite Hs in Hn.
      discriminate.
    + replace (Z.of_nat (List.length (c0 :: cr)) =? 0) with false
        by (symmetry; apply Z.eqb_neq; cbn [List.length]; lia).
      destruct (Z.of_nat (List.length (c0 :: cr)) =? 1); reflexivity.
    + now rewrite (filter_negb_none is_completed).
Qed.

(** ** What is on file *)

Lemma init_after_save (self : TodoAssistant) (env : Env) :
  write_error env = None ->
  init (save_tasks self env) = Some (self, save_tasks self env).
Proof.
  intros W. unfold init, load_tasks, save_tasks. rewrite W.
  cbn [file write_file path_exists open_and_load dump data_get Json.lookup
       String.eqb Ascii.eqb Bool.eqb Json.to_tasks].
  rewrite to_tasks_list_of_tasks. simpl. now destruct self.
Qed.

Lemma save_keeps_write_error (self : TodoAssistant) (env : Env) :
  write_error (save_tasks self env) = write_error env.
Proof. unfold save_tasks. destruct (write_error env) eqn:E; cbn; exact E. Qed.

(** What a call leaves behind: either nothing changed, or the new store
    was saved. *)
Lemma after_same_or_saved (c : call) (self : TodoAssistant) (env : Env) :
  after c (self, env) = (self, env) \/
  exists self', after c (self, env) = (self', save_tasks self' env).
Proof.
  destruct c; unfold after, step; try (left; reflexivity).
  - right. eexists. reflexivity.
  - unfold complete_task.
    destruct (find_task task_id (tasks self) 0) as [[i t]|]; [|now left].
    destruct (String.eqb (status t) "completed"); [now left|].
    right. eexists. reflexivity.
  - unfold delete_task.
    destruct (find_task task_id (tasks self) 0) as [[i t]|]; [|now left].
    right. eexists. reflexivity.
  - unfold update_task_priority.
    destruct (find_task task_id (tasks self) 0) as [[i t]|]; [|now left].
    right. eexists. reflexivity.
  - unfold clear_completed_tasks.
    destruct (filter is_completed (tasks self)); [now left|].
    right. eexists. reflexivity.
Qed.

(** X7: as long as the file can be written, what is on file is the store:
    if a fresh store built from the file equals the current store before a
    sequence of calls, it does so after it.  In particular, starting with
    no file and the empty store, a restart after any sequence of calls
    gets back the tasks and the counter. *)
Theorem restart_recovers_store (cs : list call) (st : TodoAssistant * Env) :
  write_error (snd st) = None ->
  persisted st ->
  persisted (run cs st) /\ write_error (snd (run cs st)) = None.
Proof.
  revert st. induction cs as [|c r IH]; intros [self env] W P; [now split|].
  rewrite run_cons. cbn [snd] in W.
  destruct (after_same_or_saved c self env) as [E|[self' E]]; rewrite E.
  - now apply IH.
  - apply IH.
    + cbn [snd]. now rewrite save_keeps_write_error.
    + unfold persisted. cbn [fst snd]. now apply init_after_save.
Qed.

Lemma restart_recovers_store_witness :
  write_error quiet = None /\ persisted (empty_store, quiet) /\
  init (snd (run [ AddTask "2025-10-01 09:00" "buy milk" "High" None;
                   CompleteTask "2025-10-01 10:30" 1;
                   AddTask "2025-10-01 10:31" "write report" "medium" None;
                   DeleteTask 1 ] (empty_store, quiet)))
  = Some (run [ AddTask "2025-10-01 09:00" "buy milk" "High" None;
                CompleteTask "2025-10-01 10:30" 1;
                AddTask "2025-10-01 10:31" "write report" "medium" None;
                DeleteTask 1 ] (empty_store, quiet)).
Proof.
  assert (W : write_error (snd (empty_store, quiet)) = None) by reflexivity.
  assert (P : persisted (empty_store, quiet)) by reflexivity.
  split; [exact W|]. split; [exact P|].
  pose proof (proj1 (restart_recovers_store
    [ AddTask "2025-10-01 09:00" "buy milk" "High" None;
      CompleteTask "2025-10-01 10:30" 1;
      AddTask "2025-10-01 10:31" "write report" "medium" None;
      DeleteTask 1 ] (empty_store, quiet) W P)) as H.
  unfold persisted in H. rewrite H. now destruct (run _ _).
Defined.

(** ** When the file cannot be written *)

Lemma step_ignores_env (c : call) (self : TodoAssistant) (env1 env2 : Env) :
  fst (step c (self, env1)) = fst (step c (self, env2)).
Proof.
  destruct c; unfold step; try reflexivity.
  - unfold complete_task.
    destruct (find_task task_id (tasks self) 0) as [[i t]|]; [|reflexivity].
    destruct (String.eqb (status t) "completed"); reflexivity.
  - unfold delete_task.
    destruct (find_task task_id (tasks self) 0) as [[i t]|]; reflexivity.
  - unfold update_task_priority.
    destruct (find_task task_id (tasks self) 0) as [[i t]|]; reflexivity.
  - unfold clear_completed_tasks.
    destruct (filter is_completed (tasks self)); reflexivity.
Qed.

Lemma after_ignores_env (c : call) (self : TodoAssistant) (env1 env2 : Env) :
  fst (after c (self, env1)) = fst (after c (self, env2)).
Proof.
  pose proof (step_ignores_env c self env1 env2) as H. unfold after.
  destruct (step c (self, env1)) as [[r1 s1] e1].
  destruct (step c (self, env2)) as [[r2 s2] e2].
  cbn in *. congruence.
Qed.

Lemma run_ignores_env (cs : list call) (self : TodoAssistant) (env1 env2 : Env) :
  fst (run cs (self, env1)) = fst (run cs (self, env2)).
Proof.
  revert self env1 env2. induction cs as [|c r IH]; intros self env1 env2;
    [reflexivity|].
  rewrite !run_cons.
  pose proof (after_ignores_env c self env1 env2) as H.
  destruct (after c (self, env1)) as [s1 e1].
  destruct (after c (self, env2)) as [s2 e2].
  cbn in H. subst s2. apply IH.
Qed.

Lemma save_failure_keeps_file (self : TodoAssistant) (env : Env) (e : string) :
  write_error env = Some e ->
  file (save_tasks self env) = file env /\
  stdout (save_tasks self env) = stdout env ++ [("Could not save tasks: " ++ e)%string].
Proof. intros W. unfold save_tasks. rewrite W. split; reflexivity. Qed.

(** X8: a failure to write the file costs durability only.  The answer of
    every call and the store after it do not depend on the file or on
    whether it can be written; and while writing fails, no sequence of
    calls changes the file. *)
Theorem write_failure_only_costs_durability :
  (forall c self env1 env2,
     fst (step c (self, env1)) = fst (step c (self, env2))) /\
  (forall cs self env1 env2,
     fst (run cs (self, env1)) = fst (run cs (self, env2))) /\
  (forall cs self env e,
     write_error env = Some e ->
     file (snd (run cs (self, env))) = file env /\
     write_error (snd (run cs (self, env))) = Some e).
Proof.
  split; [exact step_ignores_env|]. split; [exact run_ignores_env|].
  induction cs as [|c r IH]; intros self env e W; [now split|].
  rewrite run_cons.
  destruct (after_same_or_saved c self env) as [E|[self' E]]; rewrite E.
  - now apply IH.
  - destruct (IH self' (save_tasks self' env) e) as [F W'].
    + now rewrite save_keeps_write_error.
    + split; [|exact W'].
      rewrite F. now apply (save_failure_keeps_file self' env e).
Qed.

Lemma write_failure_only_costs_durability_witness :
  write_error (mkEnv Missing (Some "[Errno 13] Permission denied: 'tasks.json'") [])
    = Some "[Errno 13] Permission denied: 'tasks.json'" /\
  file (snd (run [ AddTask "2025-10-01 09:00" "buy milk" "High" None;
                   CompleteTask "2025-10-01 10:30" 1 ]
                 (empty_store,
                  mkEnv Missing (Some "[Errno 13] Permission denied: 'tasks.json'") [])))
  = Missing.
Proof.
  split; [reflexivity|].
  apply (proj2 (proj2 write_failure_only_costs_durability)
           [ AddTask "2025-10-01 09:00" "buy milk" "High" None;
             CompleteTask "2025-10-01 10:30" 1 ]
           empty_store
           (mkEnv Missing (Some "[Errno 13] Permission denied: 'tasks.json'") [])
           "[Errno 13] Permission denied: 'tasks.json'" eq_refl).
Defined.

(** ** No call raises *)




(** ** Filter keywords of [list_tasks] *)

Lemma lower_ascii_idem (c : ascii) :
  PyStr.lower_ascii (PyStr.lower_ascii c) = PyStr.lower_ascii c.
Proof. destruct c as [[] [] [] [] [] [] [] []]; reflexivity. Qed.

Lemma lower_idem (s : string) : PyStr.lower (PyStr.lower s) = PyStr.lower s.
Proof.
  induction s as [|c s IH]; simpl; [reflexivity|].
  now rewrite lower_ascii_idem, IH.
Qed.

Lemma filter_all (l : list Task) : filter (fun _ => true) l = l.
Proof. induction l as [|x r IH]; simpl; [reflexivity|now rewrite IH]. Qed.

Lemma filter_nothing (l : list Task) : filter (fun _ => false) l = [].
Proof. induction l as [|x r IH]; simpl; [reflexivity|exact IH]. Qed.

(** X10: [list_tasks] reads its filter keyword case-insensitively; "all"
    keeps every task; a keyword that is none of all, pending, completed,
    today, high-priority keeps no task, so that on a non-empty store the
    answer is "No <keyword> tasks found." with the keyword as it was
    given. *)
Theorem list_tasks_keywords (self : TodoAssistant) (today filter_by : string) :
  filtered_tasks self today filter_by
    = filtered_tasks self today (PyStr.lower filter_by) /\
  (PyStr.lower filter_by = "all" ->
   filtered_tasks self today filter_by = tasks self) /\
  (known_filter (PyStr.lower filter_by) = false ->
   filtered_tasks self today filter_by = [] /\
   (tasks self <> [] ->
    list_tasks self today filter_by = ("No " ++ filter_by ++ " tasks found.")%string)).
Proof.
  split; [|split].
  - unfold filtered_tasks. now rewrite lower_idem.
  - intros H. unfold filtered_tasks. rewrite H.
    rewrite fold_filter_step with (p := fun _ => true); [apply filter_all|].
    reflexivity.
  - intros H.
    assert (E : filtered_tasks self today filter_by = []).
    { unfold filtered_tasks.
      rewrite fold_filter_step with (p := fun _ => false); [apply filter_nothing|].
      intros acc t. unfold known_filter in H.
      repeat (apply orb_false_iff in H; destruct H as [H ?]).
      unfold list_filter_step. rewrite H, H0, H1, H2, H3. reflexivity. }
    split; [exact E|]. intros Hne. unfold list_tasks. rewrite E.
    destruct (tasks self); [congruence|reflexivity].
Qed.

Lemma list_tasks_keywords_witness :
  PyStr.lower "ALL" = "all" /\
  filtered_tasks three_tasks "2025-10-01" "ALL" = tasks three_tasks /\
  known_filter (PyStr.lower "overdue") = false /\
  list_tasks three_tasks "2025-10-01" "overdue" = "No overdue tasks found.".
Proof.
  destruct (list_tasks_keywords three_tasks "2025-10-01" "ALL") as (_ & H & _).
  destruct (list_tasks_keywords three_tasks "2025-10-01" "overdue") as (_ & _ & H').
  split; [reflexivity|]. split; [exact (H eq_refl)|]. split; [reflexivity|].
  apply (proj2 (H' eq_refl)). discriminate.
Defined.

(** ** What a call does to each task *)

Lemma after_task_origin (c : call) (self : TodoAssistant) (env : Env) (t' : Task) :
  In t' (tasks (fst (after c (self, env)))) ->
  (exists t, In t (tasks self) /\ evolves c t t') \/ created c self t'.
Proof.
  assert (Same : In t' (tasks self) ->
                 (exists t, In t (tasks self) /\ evolves c t t') \/ created c self t').
  { intros H. left. exists t'. split; [exact H|now left]. }
  destruct c; unfold after, step; try exact Same.
  - cbn. rewrite in_app_iff. intros [H|[<-|[]]]; [now apply Same|].
    right. repeat eexists.
  - unfold complete_task.
    destruct (find_task task_id (tasks self) 0) as [[i t]|] eqn:F; [|exact Same].
    destruct (String.eqb_spec (status t) "completed") as [Hs|Hs]; [exact Same|].
    destruct (find_task_split _ _ _ _ _ F) as (l1 & l2 & E & -> & Ht & _).
    cbn [fst snd]. unfold set_tasks. cbn [tasks]. rewrite E in *.
    cbn [Nat.add]. rewrite set_nth_app. rewrite !in_app_iff. simpl.
    intros [H|[<-|H]].
    + apply Same. apply in_app_iff. now left.
    + left. exists t. split; [apply in_app_iff; right; now left|].
      right. right. exists now. subst task_id. repeat split. exact Hs.
    + apply Same. apply in_app_iff. right. now right.
  - unfold delete_task.
    destruct (find_task task_id (tasks self) 0) as [[i t]|] eqn:F; [|exact Same].
    destruct (find_task_split _ _ _ _ _ F) as (l1 & l2 & E & -> & Ht & _).
    cbn [fst snd]. unfold set_tasks. cbn [tasks]. rewrite E in *.
    cbn [Nat.add]. rewrite pop_nth_app. rewrite !in_app_iff. simpl.
    intros [H|H]; apply Same; apply in_app_iff; [now left|right; now right].
  - unfold update_task_priority.
    destruct (find_task task_id (tasks self) 0) as [[i t]|] eqn:F; [|exact Same].
    destruct (find_task_split _ _ _ _ _ F) as (l1 & l2 & E & -> & Ht & _).
    cbn [fst snd]. unfold set_tasks. cbn [tasks]. rewrite E in *.
    cbn [Nat.add]. rewrite set_nth_app. rewrite !in_app_iff. simpl.
    intros [H|[<-|H]].
    + apply Same. apply in_app_iff. now left.
    + left. exists t. split; [apply in_app_iff; right; now left|].
      right. left. exists new_priority. subst task_id. split; reflexivity.
    + apply Same. apply in_app_iff. right. now right.
  - unfold clear_completed_tasks.
    destruct (filter is_completed (tasks self)); [exact Same|].
    cbn [fst snd]. unfold set_tasks. cbn [tasks]. intros H.
    apply filter_In in H. apply Same, H.
Qed.

Lemma run_forall (P : Task -> Prop) :
  (forall c self t', created c self t' -> P t') ->
  (forall c t t', P t -> evolves c t t' -> P t') ->
  forall cs st, Forall P (tasks (fst st)) -> Forall P (tasks (fst (run cs st))).
Proof.
  intros Hc He. induction cs as [|c r IH]; intros [self env] H; [exact H|].
  rewrite run_cons. apply IH. apply Forall_forall. intros t' Hin.
  rewrite Forall_forall in H.
  destruct (after_task_origin c self env t' Hin) as [(t & Ht & Ev)|Cr].
  - eapply He; [apply H, Ht|exact Ev].
  - eapply Hc, Cr.
Qed.



Lemma count_pending_completed (l : list Task) :
  Forall (fun t => status t = "pending" \/ status t = "completed") l ->
  count_if is_pending l + count_if is_completed l = Z.of_nat (List.length l).
Proof.
  induction 1 as [|t r Ht F IH].
  - reflexivity.
  - rewrite !count_if_cons. cbn [List.length]. rewrite Nat2Z.inj_succ.
    assert (E : (is_pending t = true /\ is_completed t = false) \/
                (is_pending t = false /\ is_completed t = true)).
    { unfold is_pending, is_completed.
      destruct Ht as [E|E]; rewrite E; [left|right]; split; reflexivity. }
    destruct E as [[-> ->]|[-> ->]]; lia.
Qed.

(** X12: in every state reachable from the empty store each task's status
    is "pending" or "completed", so the pending and the completed counts
    that [list_tasks] and [get_daily_summary] report add up to the total
    number of tasks. *)
Theorem status_pending_or_completed (self : TodoAssistant) :
  reachable self ->
  Forall (fun t => status t = "pending" \/ status t = "completed") (tasks self) /\
  count_if is_pending (tasks self) + count_if is_completed (tasks self)
    = Z.of_nat (List.length (tasks self)).
Proof.
  intros (cs & env & <-).
  assert (F : Forall (fun t => status t = "pending" \/ status t = "completed")
                     (tasks (fst (run cs (empty_store, env))))).
  { apply (run_forall (fun t => status t = "pending" \/ status t = "completed")).
    - intros c s t' (now & d & p & due & _ & ->). now left.
    - intros c t t' H [->|[(p & _ & ->)|(now & _ & _ & ->)]]; cbn;
        [exact H|exact H|now right].
    - constructor. }
  split; [exact F|now apply count_pending_completed].
Qed.

Lemma status_pending_or_completed_witness :
  reachable three_tasks /\
  count_if is_pending (tasks three_tasks) + count_if is_completed (tasks three_tasks)
    = Z.of_nat (List.length (tasks three_tasks)).
Proof.
  assert (R : reachable three_tasks) by (eexists; exists quiet; reflexivity).
  split; [exact R|]. exact (proj2 (status_pending_or_completed three_tasks R)).
Defined.

Lemma evolves_same_identity (c : call) (t t' : Task) :
  evolves c t t' ->
  same_identity t t' /\
  (status t = "completed" ->
   status t' = "completed" /\ completed_at t' = completed_at t).
Proof.
  intros [->|[(p & _ & ->)|(now & _ & Hs & ->)]]; unfold same_identity; cbn;
    repeat split; auto; contradiction.
Qed.

(** X13: no call edits a stored task's id, description, creation time or
    due date, and none touches the status or completion time of a task
    that is completed.  After any sequence of calls, every stored task
    either was stored at the start, with the same id, description,
    creation time and due date (and, if it was completed then, the same
    completion time), or was added since, with an id not below the
    counter at the start. *)
Theorem stored_task_identity_kept (cs : list call) (st : TodoAssistant * Env)
    (t' : Task) :
  In t' (tasks (fst (run cs st))) ->
  (exists t, In t (tasks (fst st)) /\ same_identity t t' /\
             (status t = "completed" ->
              status t' = "completed" /\ completed_at t' = completed_at t)) \/
  task_id_counter (fst st) <= id t'.
Proof.
  revert st. induction cs as [|c r IH]; intros [self env] Hin.
  - left. exists t'. unfold same_identity. repeat split; auto.
  - rewrite run_cons in Hin. destruct (IH _ Hin) as [(u & Hu & Su & Cu)|Hnew].
    + destruct (after (c) (self, env)) as [self1 env1] eqn:E.
      assert (Hu' : In u (tasks (fst (after c (self, env))))) by now rewrite E.
      destruct (after_task_origin c self env u Hu') as [(t & Ht & Ev)|Cr].
      * left. exists t. split; [exact Ht|].
        destruct (evolves_same_identity c t u Ev) as [St Ct].
        unfold same_identity in *. cbn [fst].
        destruct St as (A1 & A2 & A3 & A4), Su as (B1 & B2 & B3 & B4).
        split; [repeat split; congruence|].
        intros Hs. destruct (Ct Hs) as [C1 C2]. destruct (Cu C1) as [D1 D2].
        split; congruence.
      * right. destruct Cr as (now & d & p & due & _ & ->).
        destruct Su as (B1 & _). cbn in B1. cbn [fst]. lia.
    + right. pose proof (after_counter_le c (self, env)) as L.
      unfold counter_of in L. lia.
Qed.

Lemma stored_task_identity_kept_witness :
  In (mkTask 2 "write report" "low" "completed" "2025-10-01 09:01" (Some "today")
             (Some "2025-10-01 12:00"))
     (tasks (fst (run [ UpdateTaskPriority 2 "LOW"; CompleteTask "2025-10-01 12:00" 2 ]
                      (three_tasks, quiet)))) /\
  ((exists t, In t (tasks three_tasks) /\
              same_identity t
                (mkTask 2 "write report" "low" "completed" "2025-10-01 09:01"
                        (Some "today") (Some "2025-10-01 12:00")) /\
              (status t = "completed" ->
               status (mkTask 2 "write report" "low" "completed" "2025-10-01 09:01"
                              (Some "today") (Some "2025-10-01 12:00")) = "completed" /\
               completed_at (mkTask 2 "write report" "low" "completed"
                               "2025-10-01 09:01" (Some "today")
                               (Some "2025-10-01 12:00")) = completed_at t)) \/
   task_id_counter three_tasks
     <= id (mkTask 2 "write report" "low" "completed" "2025-10-01 09:01"
                   (Some "today") (Some "2025-10-01 12:00"))).
Proof.
  assert (H : In (mkTask 2 "write report" "low" "completed" "2025-10-01 09:01"
                         (Some "today") (Some "2025-10-01 12:00"))
                 (tasks (fst (run [ UpdateTaskPriority 2 "LOW";
                                    CompleteTask "2025-10-01 12:00" 2 ]
                                  (three_tasks, quiet))))).
  { right. left. reflexivity. }
  split; [exact H|].
  exact (stored_task_identity_kept _ (three_tasks, quiet) _ H).
Defined.

(** ** Loading files of other shapes *)

(** X14: a file that parses to something other than an object (a list, a
    string, a number, null) is treated like an unreadable one: the store
    starts empty with counter 1 and one line is printed, because
    [data.get] raises inside the [try].  An object without "tasks" loads
    no tasks, and takes the counter from "next_id" when that is there and
    1 otherwise, silently. *)
Theorem load_other_shapes (env : Env) :
  (forall j,
     file env = Parsed j -> (forall kvs, j <> JObj kvs) ->
     init env
     = Some (mkStore [] 1,
             print ("Could not load tasks: '" ++ Json.type_name j
                    ++ "' object has no attribute 'get'") env)) /\
  (forall kvs,
     file env = Parsed (JObj kvs) -> Json.lookup "tasks" kvs = None ->
     Json.lookup "next_id" kvs = None ->
     init env = Some (mkStore [] 1, env)) /\
  (forall kvs n,
     file env = Parsed (JObj kvs) -> Json.lookup "tasks" kvs = None ->
     Json.lookup "next_id" kvs = Some (JInt n) ->
     init env = Some (mkStore [] n, env)).
Proof.
  split; [|split].
  - intros j Hf Hj. unfold init, load_tasks. rewrite Hf.
    destruct j; try reflexivity. exfalso. now apply (Hj kvs).
  - intros kvs Hf Ht Hn. unfold init, load_tasks. rewrite Hf.
    cbn [path_exists open_and_load data_get]. rewrite Ht, Hn. reflexivity.
  - intros kvs n Hf Ht Hn. unfold init, load_tasks. rewrite Hf.
    cbn [path_exists open_and_load data_get]. rewrite Ht, Hn. reflexivity.
Qed.

Lemma load_other_shapes_witness :
  init (mkEnv (Parsed (JArr [])) None [])
  = Some (mkStore [] 1,
          mkEnv (Parsed (JArr [])) None
                ["Could not load tasks: 'list' object has no attribute 'get'"]) /\
  init (mkEnv (Parsed (JObj [("next_id", JInt 7)])) None [])
  = Some (mkStore [] 7, mkEnv (Parsed (JObj [("next_id", JInt 7)])) None []).
Proof.
  split.
  - apply (proj1 (load_other_shapes (mkEnv (Parsed (JArr [])) None []))
             (JArr []) eq_refl).
    discriminate.
  - apply (proj2 (proj2 (load_other_shapes
                           (mkEnv (Parsed (JObj [("next_id", JInt 7)])) None [])))
             [("next_id", JInt 7)] 7); reflexivity.
Defined.

(** ** The suggested task *)

(** X15: [suggest_next_task] only ever suggests a task that is stored and
    pending; when no stored task is pending it answers that everything is
    done. *)
Theorem suggested_task_is_pending (self : TodoAssistant) :
  (Forall (fun t => status t <> "pending") (tasks self) ->
   suggest_next_task self
   = Return "You've completed all your tasks! 🎉 Want to add something new?") /\
  (forall t, next_task self = Some t ->
     In t (tasks self) /\ status t = "pending" /\
     suggest_next_task self = Return (suggestion t (pending_tasks self))).
Proof.
  split.
  - intros F. unfold suggest_next_task.
    destruct (pending_tasks self) as [|m r] eqn:E; [reflexivity|].
    exfalso. assert (Hm : In m (pending_tasks self)) by (rewrite E; now left).
    unfold pending_tasks in Hm. apply filter_In in Hm. destruct Hm as [Hin Hp].
    rewrite Forall_forall in F. apply (F m Hin).
    unfold is_pending in Hp. now apply String.eqb_eq.
  - intros t Hn.
    assert (Hin : In t (pending_tasks self)).
    { unfold next_task in Hn.
      apply Permutation_in with (l := sorted sort_key tuple_lt (pending_tasks self)).
      - apply Permutation_sym, sorted_perm.
      - destruct (sorted sort_key tuple_lt (pending_tasks self)); [discriminate|].
        injection Hn as ->. now left. }
    pose proof Hin as Hin'. unfold pending_tasks in Hin'. apply filter_In in Hin'.
    destruct Hin' as [H1 H2]. split; [exact H1|]. split.
    + unfold is_pending in H2. now apply String.eqb_eq.
    + unfold suggest_next_task. rewrite Hn.
      destruct (pending_tasks self); [contradiction|reflexivity].
Qed.

Lemma suggested_task_is_pending_witness :
  next_task three_tasks
  = Some (mkTask 3 "call bank" "urgent" "pending" "2025-10-01 09:02"
                 (Some "2025-10-02") None) /\
  In (mkTask 3 "call bank" "urgent" "pending" "2025-10-01 09:02"
             (Some "2025-10-02") None) (tasks three_tasks).
Proof.
  assert (H : next_task three_tasks
              = Some (mkTask 3 "call bank" "urgent" "pending" "2025-10-01 09:02"
                             (Some "2025-10-02") None)) by (vm_compute; reflexivity).
  split; [exact H|].
  exact (proj1 (proj2 (suggested_task_is_pending three_tasks) _ H)).
Defined.

(** ** The completion rate in exact terms *)

(** [get_daily_summary] computes [completed / total * 100] on binary64
    floats.  The lemmas below follow the rounding of [SpecFloat]'s division
    and multiplication far enough to relate the float result to the exact
    quotient of the two counts. *)

Lemma digits2_pos_size p : digits2_pos p = Pos.size p.
Proof. induction p; simpl; congruence. Qed.

Lemma Zdigits2_log2 p : Zdigits2 (Zpos p) = Z.succ (Z.log2 (Zpos p)).
Proof.
  unfold Zdigits2. destruct p; simpl; rewrite ?digits2_pos_size, ?Pos2Z.inj_succ; reflexivity.
Qed.

Lemma Zdigits2_bounds p :
  2 ^ (Zdigits2 (Zpos p) - 1) <= Zpos p < 2 ^ Zdigits2 (Zpos p).
Proof.
  rewrite Zdigits2_log2. replace (Z.succ (Z.log2 (Z.pos p)) - 1) with (Z.log2 (Z.pos p)) by lia.
  apply Z.log2_spec. lia.
Qed.

Lemma Zdigits2_unique p d :
  2 ^ (d - 1) <= Zpos p < 2 ^ d -> Zdigits2 (Zpos p) = d.
Proof.
  intros H. rewrite Zdigits2_log2.
  assert (0 < d).
  { destruct (Z.lt_trichotomy d 0) as [L|[L|L]]; [|subst|exact L].
    - rewrite (Z.pow_neg_r 2 d L) in H. lia.
    - simpl in H. lia. }
  rewrite (Z.log2_unique (Zpos p) (d - 1)); try lia.
  replace (Z.succ (d - 1)) with d by lia. exact H.
Qed.

Lemma shr_1_locates mrs N D :
  locates mrs N D -> locates (shr_1 mrs) N (2 * D).
Proof.
  intros (Hm & rho & HN & Hb & Hr & Hs).
  destruct mrs as [m r s]. cbn [shr_m shr_r shr_s] in *.
  assert (Hrs : orb r s = true <-> rho <> 0).
  { rewrite orb_true_iff, Hr, Hs. split; [intros [H|H]|intros H]; lia. }
  destruct m as [|[p|p|]|p]; try lia; unfold shr_1, locates; cbn [shr_m shr_r shr_s].
  - (* 0 *)
    split; [lia|]. exists rho. rewrite Hrs. repeat split; try lia; try discriminate.
  - (* 2p+1 *)
    split; [lia|]. exists (D + rho). rewrite Hrs, Pos2Z.inj_xI in *.
    repeat split; try lia.
  - (* 2p *)
    split; [lia|]. exists rho. rewrite Hrs, Pos2Z.inj_xO in *.
    repeat split; try lia; try discriminate.
  - (* 1 *)
    split; [lia|]. exists (D + rho). rewrite Hrs.
    repeat split; try lia.
Qed.

Lemma iter_shr_1_locates p mrs N D :
  locates mrs N D -> locates (iter_pos shr_1 p mrs) N (D * 2 ^ Zpos p).
Proof.
  revert mrs D. induction p as [p IH|p IH|]; intros mrs D H; cbn [iter_pos].
  - apply shr_1_locates in H. apply IH, IH in H.
    replace (D * 2 ^ Z.pos p~1) with (2 * D * 2 ^ Z.pos p * 2 ^ Z.pos p); [exact H|].
    assert (E : Z.pos p~1 = Z.pos p + Z.pos p + 1) by lia. rewrite E.
    rewrite !Z.pow_add_r by lia. rewrite Z.pow_1_r. ring.
  - apply IH, IH in H.
    replace (D * 2 ^ Z.pos p~0) with (D * 2 ^ Z.pos p * 2 ^ Z.pos p); [exact H|].
    assert (E : Z.pos p~0 = Z.pos p + Z.pos p) by lia. rewrite E.
    rewrite Z.pow_add_r by lia. ring.
  - apply shr_1_locates in H. rewrite Z.pow_1_r, Z.mul_comm. exact H.
Qed.

Lemma shr_locates mrs e n N D :
  0 <= n -> locates mrs N D ->
  locates (fst (shr mrs e n)) N (D * 2 ^ n) /\ snd (shr mrs e n) = e + n.
Proof.
  intros Hn H. unfold shr. destruct n as [|p|p]; try lia; cbn [fst snd].
  - rewrite Z.mul_1_r. split; [exact H|lia].
  - split; [now apply iter_shr_1_locates|reflexivity].
Qed.

Lemma round_nearest_even_locates mrs N D :
  locates mrs N D ->
  let k := round_nearest_even (shr_m mrs) (loc_of_shr_record mrs) in
  shr_m mrs <= k <= shr_m mrs + 1 /\ - D <= 2 * (k * D - N) <= D.
Proof.
  intros (Hm & rho & HN & Hb & Hr & Hs).
  destruct mrs as [m r s]. cbn [shr_m shr_r shr_s] in *.
  unfold loc_of_shr_record, round_nearest_even.
  destruct r, s; cbn zeta.
  - assert (D <= 2 * rho) by (apply Hr; reflexivity).
    split; [lia|]. nia.
  - assert (D <= 2 * rho) by (apply Hr; reflexivity).
    assert (2 * rho = D).
    { destruct (Z.eq_dec (2 * rho) D) as [E|E]; [exact E|].
      assert (false = true) by (apply Hs; lia). discriminate. }
    destruct (Z.even m); split; try lia; nia.
  - assert (~ D <= 2 * rho) by (intros C; apply Hr in C; discriminate).
    split; [lia|]. nia.
  - assert (~ D <= 2 * rho) by (intros C; apply Hr in C; discriminate).
    assert (rho = 0).
    { destruct (Z.eq_dec rho 0) as [E|E]; [exact E|].
      assert (false = true) by (apply Hs; lia). discriminate. }
    split; [lia|]. nia.
Qed.

Lemma fexp_normal d : -1074 <= d - 53 -> fexp 53 1024 d = d - 53.
Proof. unfold fexp, emin. lia. Qed.

Lemma shr_m_of_loc m l : shr_m (shr_record_of_loc m l) = m.
Proof. destruct l as [|[]]; reflexivity. Qed.

Lemma binary_round_aux_spec mx ex lx N D :
  0 < mx -> 0 < D ->
  locates (shr_record_of_loc mx lx) N D ->
  53 <= Zdigits2 mx -> -1074 <= Zdigits2 mx + ex - 53 -> Zdigits2 mx + ex - 53 < 971 ->
  exists m e m1,
    binary_round_aux 53 1024 false mx ex lx = S754_finite false m e /\
    2 ^ 52 <= Zpos m < 2 ^ 53 /\
    2 ^ 52 <= m1 <= 2 ^ 53 /\
    ex + (Zdigits2 mx - 53) <= e <= ex + (Zdigits2 mx - 53) + 1 /\
    -1074 <= e <= 971 /\
    Zpos m * 2 ^ (e - (ex + (Zdigits2 mx - 53))) = m1 /\
    - (D * 2 ^ (Zdigits2 mx - 53))
      <= 2 * (m1 * (D * 2 ^ (Zdigits2 mx - 53)) - N)
      <= D * 2 ^ (Zdigits2 mx - 53).
Proof.
  intros Hmx HD Hloc Hd Hlo Hhi.
  set (d := Zdigits2 mx) in *. set (n := d - 53).
  assert (Hn : 0 <= n) by (unfold n; lia).
  unfold binary_round_aux, shr_fexp. fold d.
  rewrite (fexp_normal (d + ex)) by lia.
  replace (d + ex - 53 - ex) with n by (unfold n; lia).
  destruct (shr_locates (shr_record_of_loc mx lx) ex n N D Hn Hloc) as [L1 E1].
  destruct (shr (shr_record_of_loc mx lx) ex n) as [mrs' e'] eqn:S1.
  cbn [fst snd] in L1, E1. subst e'.
  pose proof (round_nearest_even_locates mrs' N (D * 2 ^ n) L1) as [Hk Herr].
  set (k := round_nearest_even (shr_m mrs') (loc_of_shr_record mrs')) in *.
  cbv zeta in Hk, Herr.
  (* bounds on the shifted mantissa *)
  assert (Hm' : 2 ^ 52 <= shr_m mrs' < 2 ^ 53).
  { destruct Hloc as (_ & rho0 & HN0 & Hb0 & _). rewrite shr_m_of_loc in HN0.
    destruct L1 as (_ & rho1 & HN1 & Hb1 & _).
    destruct mx as [|p|p]; try lia.
    pose proof (Zdigits2_bounds p) as Hp. fold d in Hp.
    replace (d - 1) with (52 + n) in Hp by (unfold n; lia).
    replace (2 ^ d) with (2 ^ (53 + n)) in Hp by (f_equal; unfold n; lia).
    rewrite !Z.pow_add_r in Hp by lia.
    assert (HP : 0 < 2 ^ n) by (apply Z.pow_pos_nonneg; lia).
    clear Hk Herr. clearbody k. clear k.
    set (P := 2 ^ n) in *. set (m' := shr_m mrs') in *.
    clearbody P m'. clear S1 Hd Hlo Hhi Hn. clearbody n d. 
    assert (HB : 0 < 2 ^ 52) by reflexivity.
    assert (HB' : 2 ^ 53 = 2 * 2 ^ 52) by reflexivity.
    rewrite HB' in *. set (B := 2 ^ 52) in *. clearbody B.
    assert (HDP : 0 < D * P) by nia.
    split.
    - assert (H1 : (B * P) * D < (m' + 1) * (D * P)) by nia.
      assert (H2 : B * (D * P) < (m' + 1) * (D * P))
        by (replace (B * (D * P)) with (B * P * D) by ring; exact H1).
      apply Z.mul_lt_mono_pos_r in H2; lia.
    - assert (H0 : (Z.pos p + 1) * D <= (2 * B * P) * D)
        by (apply Z.mul_le_mono_nonneg_r; lia).
      assert (H1 : m' * (D * P) < (2 * B * P) * D) by lia.
      assert (H2 : m' * (D * P) < (2 * B) * (D * P))
        by (replace (2 * B * (D * P)) with (2 * B * P * D) by ring; exact H1).
      apply Z.mul_lt_mono_pos_r in H2; lia. }
  assert (Hk' : 2 ^ 52 <= k <= 2 ^ 53) by lia.
  destruct (Z.eq_dec k (2 ^ 53)) as [Ek|Ek].
  - (* the mantissa overflowed to 2^53 *)
    rewrite Ek.
    replace (Zdigits2 (2 ^ 53)) with 54 by reflexivity.
    rewrite (fexp_normal (54 + (ex + n))) by (unfold n; lia).
    replace (54 + (ex + n) - 53 - (ex + n)) with 1 by lia.
    cbn [shr_record_of_loc shr iter_pos shr_1 shr_m Z.pow Z.pow_pos Pos.iter Z.mul Pos.mul].
    cbn [Z.add]. 
    replace (ex + n + 1 <=? 1024 - 53) with true by (symmetry; apply Z.leb_le; unfold n; lia).
    eexists _, (ex + n + 1), k. split; [reflexivity|].
    fold n. split; [cbn; lia|]. split; [exact Hk'|]. split; [lia|].
    split; [unfold n; lia|]. split; [|exact Herr].
    replace (ex + n + 1 - (ex + n)) with 1 by lia. rewrite Ek. reflexivity.
  - (* no overflow *)
    destruct k as [|kp|kp] eqn:Ekp; try lia.
    rewrite (Zdigits2_unique kp 53) by (cbn [Z.sub]; lia).
    rewrite (fexp_normal (53 + (ex + n))) by (unfold n; lia).
    replace (53 + (ex + n) - 53 - (ex + n)) with 0 by lia.
    cbn [shr_record_of_loc shr shr_m].
    replace (ex + n <=? 1024 - 53) with true by (symmetry; apply Z.leb_le; unfold n; lia).
    exists kp, (ex + n), (Z.pos kp). split; [reflexivity|].
    fold n. split; [lia|]. split; [lia|]. split; [lia|].
    split; [unfold n; lia|]. split; [|exact Herr].
    replace (ex + n - (ex + n)) with 0 by lia. cbn. lia.
Qed.

Lemma iter_xO_pow (p s : positive) :
  Zpos (Pos.iter xO p s) = Zpos p * 2 ^ Zpos s.
Proof.
  induction s as [|s IH] using Pos.peano_ind.
  - cbn [Pos.iter]. rewrite Z.pow_1_r. lia.
  - rewrite Pos.iter_succ, Pos2Z.inj_xO, IH, Pos2Z.inj_succ, Z.pow_succ_r by lia.
    ring.
Qed.

Lemma locates_exact m : 0 <= m -> locates (shr_record_of_loc m loc_Exact) m 1.
Proof.
  intros H. split; [exact H|]. exists 0. cbn. repeat split; try lia; try discriminate.
Qed.

Lemma pow2_lt_inv (a b : Z) : 0 <= b -> 2 ^ a < 2 ^ b -> a < b.
Proof. intros Hb H. apply (Z.pow_lt_mono_r_iff 2); lia. Qed.

(** [float(z)] for [0 < z < 2^53] is exact. *)
Lemma of_int_spec (z : Z) :
  0 < z < 2 ^ 53 ->
  exists m e,
    binary_normalize 53 1024 z 0 false = S754_finite false m e /\
    2 ^ 52 <= Zpos m < 2 ^ 53 /\ -52 <= e <= 0 /\ Zpos m = z * 2 ^ (- e).
Proof.
  intros Hz. destruct z as [|p|p]; try lia.
  unfold binary_normalize, binary_round.
  pose proof (Zdigits2_bounds p) as Hp.
  set (d := Zdigits2 (Zpos p)) in *.
  assert (Hd : 1 <= d <= 53).
  { split.
    - destruct (Z.le_gt_cases 1 d) as [L|L]; [exact L|].
      assert (2 ^ d <= 2 ^ 0) by (apply Z.pow_le_mono_r; lia).
      change (2 ^ 0) with 1 in H. lia.
    - assert (d - 1 < 53); [|lia]. apply pow2_lt_inv; lia. }
  change (Z.pos (digits2_pos p)) with d.
  rewrite (fexp_normal (d + 0)) by lia.
  assert (Hal : exists mz, shl_align p 0 (d + 0 - 53) = (mz, d - 53) /\
                           Zpos mz = Zpos p * 2 ^ (53 - d)).
  { unfold shl_align. destruct (d + 0 - 53 - 0) as [|s|s] eqn:Es; try lia.
    - exists p. assert (d = 53) by lia. subst d. rewrite H. split; [reflexivity|].
      cbn. lia.
    - exists (Pos.iter xO p s). split; [f_equal; lia|].
      rewrite iter_xO_pow. f_equal. f_equal. lia. }
  destruct Hal as (mz & -> & Hmz).
  assert (Hmzb : 2 ^ 52 <= Zpos mz < 2 ^ 53).
  { rewrite Hmz.
    replace (2 ^ 52) with (2 ^ (d - 1) * 2 ^ (53 - d))
      by (rewrite <- Z.pow_add_r by lia; f_equal; lia).
    replace (2 ^ 53) with (2 ^ d * 2 ^ (53 - d))
      by (rewrite <- Z.pow_add_r by lia; f_equal; lia).
    assert (0 < 2 ^ (53 - d)) by (apply Z.pow_pos_nonneg; lia).
    split; [apply Z.mul_le_mono_nonneg_r; lia|apply Z.mul_lt_mono_pos_r; lia]. }
  assert (Hdz : Zdigits2 (Zpos mz) = 53) by (apply Zdigits2_unique; exact Hmzb).
  destruct (binary_round_aux_spec (Zpos mz) (d - 53) loc_Exact (Zpos mz) 1)
    as (m & e & m1 & Eq & Hm & Hm1 & He & Her & Hval & Herr);
    try rewrite Hdz; try lia.
  { apply locates_exact. lia. }
  rewrite Hdz in *. replace (53 - 53) with 0 in * by lia.
  rewrite Z.pow_0_r, !Z.mul_1_r, Z.add_0_r in *.
  assert (Em1 : m1 = Zpos mz) by lia. rewrite Em1 in Hval. clear Herr Hm1 Em1.
  assert (e = d - 53).
  { destruct (Z.eq_dec e (d - 53)) as [E|E]; [exact E|].
    assert (e = d - 53 + 1) by lia. subst e.
    replace (d - 53 + 1 - (d - 53)) with 1 in Hval by lia.
    rewrite Z.pow_1_r in Hval.
    assert (2 ^ 53 = 2 * 2 ^ 52) by reflexivity. lia. }
  subst e. replace (d - 53 - (d - 53)) with 0 in Hval by lia.
  rewrite Z.pow_0_r, Z.mul_1_r in Hval.
  exists m, (d - 53). split; [exact Eq|]. split; [exact Hm|]. split; [lia|].
  rewrite Hval, Hmz. f_equal. f_equal. lia.
Qed.

Lemma digits_between (M : positive) (a b : Z) :
  0 <= a -> 0 <= b -> 2 ^ a <= Zpos M < 2 ^ b -> a + 1 <= Zdigits2 (Zpos M) <= b.
Proof.
  intros Ha Hb H. pose proof (Zdigits2_bounds M) as HM.
  set (d := Zdigits2 (Zpos M)) in *.
  assert (0 < d).
  { destruct (Z.le_gt_cases d 0) as [L|L]; [|exact L].
    assert (2 ^ d <= 2 ^ 0) by (apply Z.pow_le_mono_r; lia).
    change (2 ^ 0) with 1 in H0. lia. }
  split.
  - assert (a < d); [|lia]. apply pow2_lt_inv; lia.
  - assert (d - 1 < b); [|lia]. apply pow2_lt_inv; lia.
Qed.

(** [x * y] on two positive normal floats, away from overflow and
    underflow. *)
Lemma SFmul_spec (m1 m2 : positive) (e1 e2 : Z) :
  2 ^ 52 <= Zpos m1 < 2 ^ 53 -> 2 ^ 52 <= Zpos m2 < 2 ^ 53 ->
  -1100 <= e1 + e2 <= 800 ->
  exists m e M1 e0,
    SFmul 53 1024 (S754_finite false m1 e1) (S754_finite false m2 e2)
      = S754_finite false m e /\
    2 ^ 52 <= Zpos m < 2 ^ 53 /\ 2 ^ 52 <= M1 <= 2 ^ 53 /\
    e0 <= e <= e0 + 1 /\ Zpos m * 2 ^ (e - e0) = M1 /\
    e1 + e2 + 52 <= e0 <= e1 + e2 + 53 /\
    - 2 ^ (e0 - (e1 + e2))
      <= 2 * (M1 * 2 ^ (e0 - (e1 + e2)) - Zpos m1 * Zpos m2)
      <= 2 ^ (e0 - (e1 + e2)).
Proof.
  intros H1 H2 He. cbn [SFmul xorb].
  assert (HM : 2 ^ 104 <= Zpos (m1 * m2) < 2 ^ 106).
  { rewrite Pos2Z.inj_mul.
    change (2 ^ 104) with (2 ^ 52 * 2 ^ 52). change (2 ^ 106) with (2 ^ 53 * 2 ^ 53).
    set (B := 2 ^ 52) in *. set (C := 2 ^ 53) in *.
    assert (0 < B) by reflexivity. assert (0 < C) by reflexivity.
    clearbody B C. split.
    - apply Z.mul_le_mono_nonneg; lia.
    - apply Z.mul_lt_mono_nonneg; lia. }
  pose proof (digits_between (m1 * m2) 104 106 ltac:(lia) ltac:(lia) HM) as Hd.
  set (dd := Zdigits2 (Zpos (m1 * m2))) in *.
  destruct (binary_round_aux_spec (Zpos (m1 * m2)) (e1 + e2) loc_Exact
              (Zpos (m1 * m2)) 1)
    as (m & e & M1 & Eq & Hm & HM1 & Hee & Her & Hval & Herr); fold dd; try lia.
  { apply locates_exact. lia. }
  fold dd in Hee, Hval, Herr.
  exists m, e, M1, (e1 + e2 + (dd - 53)).
  split; [exact Eq|]. split; [exact Hm|]. split; [exact HM1|]. split; [lia|].
  split; [exact Hval|]. split; [lia|].
  replace (e1 + e2 + (dd - 53) - (e1 + e2)) with (dd - 53) by lia.
  rewrite Z.mul_1_l in Herr. rewrite Pos2Z.inj_mul in Herr. exact Herr.
Qed.

Ltac loc_solve :=
  cbn [shr_r shr_s shr_record_of_loc]; repeat split; intros;
  try discriminate; try reflexivity; try lia; try (exfalso; lia).

Lemma new_location_locates (q r D : Z) :
  0 <= q -> 0 <= r < D ->
  locates (shr_record_of_loc q (new_location D r)) (q * D + r) D.
Proof.
  intros Hq Hr. split; [now rewrite shr_m_of_loc|].
  exists r. rewrite shr_m_of_loc. split; [reflexivity|]. split; [exact Hr|].
  unfold new_location, new_location_even, new_location_odd.
  destruct (Z.even D) eqn:Ev.
  - destruct (Z.eqb_spec r 0) as [E|E]; [loc_solve|].
    destruct (Z.compare_spec (2 * r) D); loc_solve.
  - assert (Hodd : 2 * r <> D).
    { intros <-. rewrite Z.even_mul in Ev. discriminate. }
    destruct (Z.eqb_spec r 0) as [E|E]; [loc_solve|].
    destruct (Z.compare_spec (2 * r + 1) D); loc_solve.
Qed.

(** [x / y] on two positive normal floats, away from overflow and
    underflow. *)
Lemma SFdiv_spec (m1 m2 : positive) (e1 e2 : Z) :
  2 ^ 52 <= Zpos m1 < 2 ^ 53 -> 2 ^ 52 <= Zpos m2 < 2 ^ 53 ->
  -900 <= e1 - e2 <= 900 ->
  exists m e M1 e0,
    SFdiv 53 1024 (S754_finite false m1 e1) (S754_finite false m2 e2)
      = S754_finite false m e /\
    2 ^ 52 <= Zpos m < 2 ^ 53 /\ 2 ^ 52 <= M1 <= 2 ^ 53 /\
    e0 <= e <= e0 + 1 /\ Zpos m * 2 ^ (e - e0) = M1 /\
    e1 - e2 - 53 <= e0 <= e1 - e2 - 52 /\
    - (Zpos m2 * 2 ^ (e0 - (e1 - e2 - 53)))
      <= 2 * (M1 * (Zpos m2 * 2 ^ (e0 - (e1 - e2 - 53))) - Zpos m1 * 2 ^ 53)
      <= Zpos m2 * 2 ^ (e0 - (e1 - e2 - 53)).
Proof.
  intros H1 H2 He. cbn [SFdiv xorb]. unfold SFdiv_core_binary.
  rewrite (Zdigits2_unique m1 53), (Zdigits2_unique m2 53) by (cbn [Z.sub]; lia).
  rewrite (fexp_normal (53 + e1 - (53 + e2))) by lia.
  replace (Z.min (53 + e1 - (53 + e2) - 53) (e1 - e2)) with (e1 - e2 - 53) by lia.
  replace (e1 - e2 - (e1 - e2 - 53)) with 53 by lia.
  rewrite Z.shiftl_mul_pow2 by lia.
  pose proof (Z_div_mod (Zpos m1 * 2 ^ 53) (Zpos m2) ltac:(lia)) as Hdm.
  destruct (Z.div_eucl (Z.pos m1 * 2 ^ 53) (Z.pos m2)) as [q r].
  destruct Hdm as [Hq Hr].
  assert (Hqb : 2 ^ 52 <= q < 2 ^ 54).
  { assert (E54 : 2 ^ 54 = 4 * 2 ^ 52) by reflexivity.
    assert (E53 : 2 ^ 53 = 2 * 2 ^ 52) by reflexivity.
    rewrite E54. rewrite E53 in *.
    assert (HB : 0 < 2 ^ 52) by reflexivity.
    set (B := 2 ^ 52) in *. clearbody B.
    set (a := Zpos m1) in *. set (b := Zpos m2) in *.
    assert (0 < b) by lia. clearbody a b.
    split.
    - assert (B * b < (q + 1) * b); [|apply Z.mul_lt_mono_pos_r in H0; lia].
      assert (B * b < B * (2 * B)) by (apply Z.mul_lt_mono_pos_l; lia).
      assert (B * (2 * B) <= a * (2 * B)) by (apply Z.mul_le_mono_nonneg_r; lia).
      lia.
    - assert (q * b < (4 * B) * b); [|apply Z.mul_lt_mono_pos_r in H0; lia].
      assert (a * (2 * B) < (2 * B) * (2 * B)) by (apply Z.mul_lt_mono_pos_r; lia).
      assert ((4 * B) * B <= (4 * B) * b) by (apply Z.mul_le_mono_nonneg_l; lia).
      lia. }
  destruct q as [|qp|qp]; try lia.
  pose proof (digits_between qp 52 54 ltac:(lia) ltac:(lia) Hqb) as Hd.
  set (dq := Zdigits2 (Zpos qp)) in *.
  destruct (binary_round_aux_spec (Zpos qp) (e1 - e2 - 53) (new_location (Zpos m2) r)
              (Zpos m1 * 2 ^ 53) (Zpos m2))
    as (m & e & M1 & Eq & Hm & HM1 & Hee & Her & Hval & Herr); fold dq; try lia.
  { rewrite Hq. rewrite (Z.mul_comm (Zpos m2) (Zpos qp)).
    apply new_location_locates; lia. }
  fold dq in Hee, Hval, Herr.
  exists m, e, M1, (e1 - e2 - 53 + (dq - 53)).
  split; [exact Eq|]. split; [exact Hm|]. split; [exact HM1|]. split; [lia|].
  split; [exact Hval|]. split; [lia|].
  replace (e1 - e2 - 53 + (dq - 53) - (e1 - e2 - 53)) with (dq - 53) by lia.
  exact Herr.
Qed.

(** [x * t >= -t/2]-style cancellation: an integer [x] with
    [0 <= 2 * x * t + t] is non-negative. *)
Lemma half_cancel (x t : Z) : 0 < t -> 0 <= x * (2 * t) + t -> 0 <= x.
Proof.
  intros Ht H. destruct (Z.le_gt_cases 0 x) as [L|L]; [exact L|].
  assert (x * (2 * t) <= -1 * (2 * t)) by (apply Z.mul_le_mono_nonneg_r; lia).
  lia.
Qed.

Section Core.
Variables c t M1 M1' B W4 : Z.
Hypothesis Ht : 0 < t.
Hypothesis HB : 4 * t <= B.
Hypothesis HW : 16 <= W4.
Hypothesis E1 : - t <= 2 * (M1 * t - c * (B * (4 * W4))) <= t.
Hypothesis E2 : - (4 * W4) <= 2 * (M1' * (4 * W4) - 100 * M1) <= 4 * W4.

Lemma BW_pos : 0 < B * W4.
Proof. apply Z.mul_pos_pos; lia. Qed.

Lemma core_ge (num : Z) :
  0 <= num <= 4 -> num * t <= 4 * c -> 25 * num * B <= M1'.
Proof.
  intros Hn H.
  pose proof BW_pos as HBW.
  assert (P1 : 0 <= (4 * c - num * t) * (B * W4))
    by (apply Z.mul_nonneg_nonneg; lia).
  assert (S2 : 0 <= M1 - B * W4 * num).
  { apply (half_cancel _ t Ht). lia. }
  assert (S3 : 0 <= M1' - 25 * num * B).
  { apply (half_cancel _ (4 * W4)); lia. }
  lia.
Qed.

Lemma core_le (num : Z) :
  0 <= num <= 4 -> 4 * c <= num * t -> M1' <= 25 * num * B.
Proof.
  intros Hn H.
  pose proof BW_pos as HBW.
  assert (P1 : 0 <= (num * t - 4 * c) * (B * W4))
    by (apply Z.mul_nonneg_nonneg; lia).
  assert (S2 : 0 <= B * W4 * num - M1).
  { apply (half_cancel _ t Ht). lia. }
  assert (S3 : 0 <= 25 * num * B - M1').
  { apply (half_cancel _ (4 * W4)); lia. }
  lia.
Qed.

Lemma core_lt (num : Z) :
  0 <= num <= 4 -> 4 * c < num * t -> M1' < 25 * num * B.
Proof.
  intros Hn H.
  destruct (Z.lt_ge_cases M1' (25 * num * B)) as [L|L]; [exact L|exfalso].
  (* 50 num A <= 200 M1 + W, times t *)
  pose proof BW_pos as HBW.
  assert (Q7 : 0 < W4 * t) by (apply Z.mul_pos_pos; lia).
  assert (Q1 : 0 <= (M1' - 25 * num * B) * (W4 * t))
    by (apply Z.mul_nonneg_nonneg; lia).
  assert (Q2 : 0 <= (num * t - 1 - 4 * c) * (B * W4))
    by (apply Z.mul_nonneg_nonneg; lia).
  assert (Q3 : 0 <= (B - 4 * t) * W4) by (apply Z.mul_nonneg_nonneg; lia).
  assert (Q4 : 0 <= (W4 - 16) * t) by (apply Z.mul_nonneg_nonneg; lia).
  assert (Q5 : 0 <= ((2 * (M1' * (4 * W4) - 100 * M1)) + 4 * W4) * t)
    by (apply Z.mul_nonneg_nonneg; lia).
  assert (Q6 : 0 <= (4 * W4 - (2 * (M1' * (4 * W4) - 100 * M1))) * t)
    by (apply Z.mul_nonneg_nonneg; lia).
  lia.
Qed.

Lemma core_round (k : Z) :
  - B <= 2 * (B * k - M1') <= B ->
  - t <= 2 * (k * t - 100 * c) <= t.
Proof.
  intros E3.
  pose proof BW_pos as HBW.
  assert (Q7 : 0 < W4 * t) by (apply Z.mul_pos_pos; lia).
  assert (Q1 : 0 <= (B - 2 * (B * k - M1')) * (W4 * t))
    by (apply Z.mul_nonneg_nonneg; lia).
  assert (Q2 : 0 <= (B + 2 * (B * k - M1')) * (W4 * t))
    by (apply Z.mul_nonneg_nonneg; lia).
  assert (Q3 : 0 <= (4 * W4 - 2 * (M1' * (4 * W4) - 100 * M1)) * t)
    by (apply Z.mul_nonneg_nonneg; lia).
  assert (Q4 : 0 <= (4 * W4 + 2 * (M1' * (4 * W4) - 100 * M1)) * t)
    by (apply Z.mul_nonneg_nonneg; lia).
  assert (Q5 : 0 <= (B - 4 * t) * W4) by (apply Z.mul_nonneg_nonneg; lia).
  assert (Q6 : 0 <= (W4 - 16) * t) by (apply Z.mul_nonneg_nonneg; lia).
  split.
  - destruct (Z.le_gt_cases (- t) (2 * (k * t - 100 * c))) as [L|L]; [exact L|].
    exfalso.
    assert (Q8 : 0 <= (- t - 1 - 2 * (k * t - 100 * c)) * (B * W4))
      by (apply Z.mul_nonneg_nonneg; lia).
    lia.
  - destruct (Z.le_gt_cases (2 * (k * t - 100 * c)) t) as [L|L]; [exact L|].
    exfalso.
    assert (Q8 : 0 <= (2 * (k * t - 100 * c) - t - 1) * (B * W4))
      by (apply Z.mul_nonneg_nonneg; lia).
    lia.
Qed.
End Core.

Lemma rhe_spec (m k : Z) :
  0 < k ->
  - 2 ^ k <= 2 * (PyFloat.round_half_even m k * 2 ^ k - m) <= 2 ^ k.
Proof.
  intros Hk. unfold PyFloat.round_half_even.
  assert (HP : 0 < 2 ^ k) by (apply Z.pow_pos_nonneg; lia).
  assert (Hh : 2 ^ k = 2 * 2 ^ (k - 1)).
  { rewrite <- Z.pow_succ_r by lia. f_equal. lia. }
  pose proof (Z.div_mod m (2 ^ k) ltac:(lia)) as Hdm.
  pose proof (Z.mod_pos_bound m (2 ^ k) HP) as Hb.
  set (q := m / 2 ^ k) in *. set (r := m mod 2 ^ k) in *.
  set (h := 2 ^ (k - 1)) in *. set (P := 2 ^ k) in *.
  clearbody q r h P.
  destruct (Z.ltb_spec r h); [lia|].
  destruct (Z.ltb_spec h r); [lia|].
  destruct (Z.even q); lia.
Qed.

(** Order of two positive normal floats, read on a common scale. *)
Lemma compare_scaled (m1 m2 : positive) (e1 e2 K : Z) :
  2 ^ 52 <= Zpos m1 < 2 ^ 53 -> 2 ^ 52 <= Zpos m2 < 2 ^ 53 ->
  0 <= e1 + K -> 0 <= e2 + K ->
  SFcompare (S754_finite false m1 e1) (S754_finite false m2 e2)
  = Some (Z.compare (Zpos m1 * 2 ^ (e1 + K)) (Zpos m2 * 2 ^ (e2 + K))).
Proof.
  intros H1 H2 K1 K2. cbn [SFcompare]. f_equal.
  assert (E53 : 2 ^ 53 = 2 * 2 ^ 52) by reflexivity. rewrite E53 in *.
  assert (HB : 0 < 2 ^ 52) by reflexivity.
  set (B := 2 ^ 52) in *. clearbody B.
  destruct (Z.compare_spec e1 e2) as [E|L|L].
  - subst e2. rewrite Pos.compare_cont_spec. cbn [Pos.switch_Eq].
    assert (HP : 0 < 2 ^ (e1 + K)) by (apply Z.pow_pos_nonneg; lia).
    change (Pos.compare m1 m2) with (Z.compare (Zpos m1) (Zpos m2)).
    rewrite <- (Zmult_compare_compat_r (Zpos m1) (Zpos m2)) by lia.
    now destruct (Zpos m1 ?= Zpos m2).
  - symmetry. apply Z.compare_lt_iff.
    replace (e2 + K) with ((e1 + K) + (e2 - e1)) by lia.
    rewrite (Z.pow_add_r 2 (e1 + K) (e2 - e1)) by lia.
    assert (HP : 0 < 2 ^ (e1 + K)) by (apply Z.pow_pos_nonneg; lia).
    assert (HQ : 2 <= 2 ^ (e2 - e1)).
    { change 2 with (2 ^ 1) at 1. apply Z.pow_le_mono_r; lia. }
    set (P := 2 ^ (e1 + K)) in *. set (Q := 2 ^ (e2 - e1)) in *. clearbody P Q.
    assert (Zpos m1 * P < (2 * B) * P) by (apply Z.mul_lt_mono_pos_r; lia).
    assert ((2 * B) * P <= (B * Q) * P).
    { apply Z.mul_le_mono_nonneg_r; [lia|]. 
      rewrite (Z.mul_comm 2 B). apply Z.mul_le_mono_nonneg_l; lia. }
    assert ((B * Q) * P <= (Zpos m2 * Q) * P).
    { apply Z.mul_le_mono_nonneg_r; [lia|]. apply Z.mul_le_mono_nonneg_r; lia. }
    lia.
  - symmetry. apply Z.compare_gt_iff.
    replace (e1 + K) with ((e2 + K) + (e1 - e2)) by lia.
    rewrite (Z.pow_add_r 2 (e2 + K) (e1 - e2)) by lia.
    assert (HP : 0 < 2 ^ (e2 + K)) by (apply Z.pow_pos_nonneg; lia).
    assert (HQ : 2 <= 2 ^ (e1 - e2)).
    { change 2 with (2 ^ 1) at 1. apply Z.pow_le_mono_r; lia. }
    set (P := 2 ^ (e2 + K)) in *. set (Q := 2 ^ (e1 - e2)) in *. clearbody P Q.
    assert (Zpos m2 * P < (2 * B) * P) by (apply Z.mul_lt_mono_pos_r; lia).
    assert ((2 * B) * P <= (B * Q) * P).
    { apply Z.mul_le_mono_nonneg_r; [lia|]. 
      rewrite (Z.mul_comm 2 B). apply Z.mul_le_mono_nonneg_l; lia. }
    assert ((B * Q) * P <= (Zpos m1 * Q) * P).
    { apply Z.mul_le_mono_nonneg_r; [lia|]. apply Z.mul_le_mono_nonneg_r; lia. }
    lia.
Qed.

Lemma of_int_100 : PyFloat.of_int 100 = S754_finite false 7036874417766400 (-46).
Proof. reflexivity. Qed.

Lemma mul_cancel_bounds (x y S : Z) :
  0 < S -> - (y * S) <= 2 * (x * S) <= y * S -> - y <= 2 * x <= y.
Proof.
  intros HS [H1 H2]. split.
  - apply Z.mul_le_mono_pos_r with (p := S); lia.
  - apply Z.mul_le_mono_pos_r with (p := S); lia.
Qed.

Lemma exponent_order (c t mc mt ec et : Z) :
  0 < c <= t ->
  mc = c * 2 ^ (- ec) -> mt = t * 2 ^ (- et) ->
  2 ^ 52 <= mc < 2 ^ 53 -> 2 ^ 52 <= mt < 2 ^ 53 ->
  ec <= 0 -> et <= 0 -> ec <= et.
Proof.
  intros Hc Emc Emt Hmc Hmt Hec Het.
  destruct (Z.le_gt_cases ec et) as [L|L]; [exact L|exfalso].
  assert (E : 2 ^ (- et) = 2 ^ (- ec) * 2 ^ (ec - et)).
  { rewrite <- Z.pow_add_r by lia. f_equal. lia. }
  assert (HQ : 2 <= 2 ^ (ec - et)).
  { change 2 with (2 ^ 1) at 1. apply Z.pow_le_mono_r; lia. }
  assert (HP : 0 < 2 ^ (- ec)) by (apply Z.pow_pos_nonneg; lia).
  rewrite E in Emt.
  assert (E53 : 2 ^ 53 = 2 * 2 ^ 52) by reflexivity. rewrite E53 in *.
  set (B := 2 ^ 52) in *. set (P := 2 ^ (- ec)) in *. set (Q := 2 ^ (ec - et)) in *.
  clearbody B P Q.
  assert (A1 : 0 <= c * P) by (apply Z.mul_nonneg_nonneg; lia).
  assert (A2 : c * P <= t * P) by (apply Z.mul_le_mono_nonneg_r; lia).
  assert (A3 : (t * P) * 2 <= (t * P) * Q) by (apply Z.mul_le_mono_nonneg_l; lia).
  subst mc mt. lia.
Qed.

Lemma pow2_split (a b : Z) : 0 <= a -> 0 <= b -> 2 ^ (a + b) = 2 ^ a * 2 ^ b.
Proof. intros. apply Z.pow_add_r; lia. Qed.

(** The float that [completion_rate] computes for [0 < c <= t], with
    the two rounding errors of [c / t] and of [* 100] made explicit:
    [M1 / (B * 4 * W4)] is the rounded quotient and [M1' / B] the
    rounded rate. *)
Lemma rate_spec (c t : Z) :
  0 < c <= t -> t <= 2 ^ 42 ->
  exists mR eR M1 M1' b W4,
    completion_rate c t = Return (S754_finite false mR eR) /\
    2 ^ 52 <= Zpos mR < 2 ^ 53 /\
    44 <= b <= 200 /\ - b <= eR <= - b + 1 /\
    Zpos mR * 2 ^ (eR + b) = M1' /\
    16 <= W4 /\
    - t <= 2 * (M1 * t - c * (2 ^ b * (4 * W4))) <= t /\
    - (4 * W4) <= 2 * (M1' * (4 * W4) - 100 * M1) <= 4 * W4.
Proof.
  intros Hc Ht.
  assert (Hc53 : 0 < c < 2 ^ 53).
  { assert (2 ^ 42 < 2 ^ 53) by reflexivity. lia. }
  assert (Ht53 : 0 < t < 2 ^ 53).
  { assert (2 ^ 42 < 2 ^ 53) by reflexivity. lia. }
  destruct (of_int_spec c Hc53) as (mc & ec & Ec & Hmc & Hec & Vc).
  destruct (of_int_spec t Ht53) as (mt & et & Et & Hmt & Het & Vt).
  pose proof (exponent_order c t (Zpos mc) (Zpos mt) ec et Hc Vc Vt Hmc Hmt
                ltac:(lia) ltac:(lia)) as Hord.
  destruct (SFdiv_spec mc mt ec et Hmc Hmt ltac:(lia))
    as (mq & eq & M1 & e0 & Eq & Hmq & HM1 & Heq & Vq & He0 & Herr).
  destruct (SFmul_spec mq 7036874417766400 eq (-46) Hmq
              ltac:(split; [discriminate|reflexivity]) ltac:(lia))
    as (mR & eR & M1' & e0' & ER & HmR & HM1' & HeR & VR & He0' & Herr').
  set (n := e0 - (ec - et - 53)) in *.
  set (n' := e0' - (eq + -46)) in *.
  set (dl := eq - e0) in *.
  exists mR, eR, M1, M1', (- e0'), (2 ^ (n' + dl - 48)).
  assert (Hn : 0 <= n <= 1) by (unfold n; lia).
  assert (Hn' : 52 <= n' <= 53) by (unfold n'; lia).
  assert (Hdl : 0 <= dl <= 1) by (unfold dl; lia).
  split.
  { unfold completion_rate, PyFloat.true_div, PyFloat.mul.
    replace (0 <? t) with true by (symmetry; apply Z.ltb_lt; lia).
    replace (t =? 0) with false by (symmetry; apply Z.eqb_neq; lia).
    unfold PyFloat.of_int at 1 2, PyFloat.prec, PyFloat.emax.
    rewrite Ec, Et, Eq, of_int_100. now rewrite ER. }
  split; [exact HmR|].
  split; [unfold n', dl in *; lia|].
  split; [lia|].
  split.
  { rewrite <- VR. replace (eR + - e0') with (eR - e0') by lia. reflexivity. }
  split.
  { change 16 with (2 ^ 4). apply Z.pow_le_mono_r; lia. }
  split.
  - (* the quotient *)
    apply (mul_cancel_bounds (M1 * t - c * (2 ^ (- e0') * (4 * 2 ^ (n' + dl - 48))))
             t (2 ^ (n - et))).
    { apply Z.pow_pos_nonneg; lia. }
    assert (EA : 2 ^ (- e0') * (4 * 2 ^ (n' + dl - 48)) = 2 ^ (- e0)).
    { change 4 with (2 ^ 2). rewrite <- !pow2_split by (unfold n', dl in *; lia).
      f_equal. unfold n', dl. lia. }
    rewrite EA.
    assert (Et' : Zpos mt * 2 ^ n = t * 2 ^ (n - et)).
    { rewrite Vt. replace (n - et) with (- et + n) by lia.
      rewrite pow2_split by lia. ring. }
    assert (Ec' : Zpos mc * 2 ^ 53 = c * 2 ^ (- e0) * 2 ^ (n - et)).
    { rewrite Vc.
      assert (EE : 2 ^ (- ec) * 2 ^ 53 = 2 ^ (- e0) * 2 ^ (n - et)).
      { rewrite <- (pow2_split (- ec) 53) by lia.
        rewrite <- (pow2_split (- e0) (n - et)) by (unfold n; lia).
        f_equal. unfold n. lia. }
      rewrite <- !Z.mul_assoc. now rewrite EE. }
    rewrite Et', Ec' in Herr.
    replace ((M1 * t - c * 2 ^ (- e0)) * 2 ^ (n - et))
      with (M1 * (t * 2 ^ (n - et)) - c * 2 ^ (- e0) * 2 ^ (n - et)) by ring.
    exact Herr.
  - (* the product *)
    apply (mul_cancel_bounds (M1' * (4 * 2 ^ (n' + dl - 48)) - 100 * M1)
             (4 * 2 ^ (n' + dl - 48)) (2 ^ 46)); [reflexivity|].
    assert (EW : 4 * 2 ^ (n' + dl - 48) * 2 ^ 46 = 2 ^ n' * 2 ^ dl).
    { change 4 with (2 ^ 2). rewrite <- !pow2_split by lia. f_equal. lia. }
    assert (HT : 0 < 2 ^ dl) by (apply Z.pow_pos_nonneg; lia).
    rewrite EW.
    replace ((M1' * (4 * 2 ^ (n' + dl - 48)) - 100 * M1) * 2 ^ 46)
      with (M1' * (4 * 2 ^ (n' + dl - 48) * 2 ^ 46) - (100 * 2 ^ 46) * M1) by ring.
    rewrite EW. rewrite <- Vq. fold dl.
    change (100 * 2 ^ 46) with (Zpos 7036874417766400).
    replace (M1' * (2 ^ n' * 2 ^ dl) - Z.pos 7036874417766400 * (Z.pos mq * 2 ^ dl))
      with ((M1' * 2 ^ n' - Zpos mq * Zpos 7036874417766400) * 2 ^ dl) by ring.
    destruct Herr' as [L U]. split.
    + replace (- (2 ^ n' * 2 ^ dl)) with ((- 2 ^ n') * 2 ^ dl) by ring.
      rewrite Z.mul_assoc. apply Z.mul_le_mono_nonneg_r; lia.
    + rewrite Z.mul_assoc. apply Z.mul_le_mono_nonneg_r; lia.
Qed.

Section RateFacts.
Variables (c t : Z) (mR : positive) (eR M1 M1' b W4 : Z).
Hypothesis Hc : 0 < c <= t.
Hypothesis Ht : t <= 2 ^ 42.
Hypothesis HmR : 2 ^ 52 <= Zpos mR < 2 ^ 53.
Hypothesis Hb : 44 <= b <= 200.
Hypothesis HeR : - b <= eR <= - b + 1.
Hypothesis VR : Zpos mR * 2 ^ (eR + b) = M1'.
Hypothesis HW : 16 <= W4.
Hypothesis E1 : - t <= 2 * (M1 * t - c * (2 ^ b * (4 * W4))) <= t.
Hypothesis E2 : - (4 * W4) <= 2 * (M1' * (4 * W4) - 100 * M1) <= 4 * W4.

Lemma B_large : 4 * t <= 2 ^ b.
Proof.
  assert (2 ^ 44 <= 2 ^ b) by (apply Z.pow_le_mono_r; lia).
  assert (4 * 2 ^ 42 = 2 ^ 44) by reflexivity. lia.
Qed.

(** Comparison of the rate with an integer threshold [g] that is a
    float. *)
Lemma compare_threshold (g : Z) (mg : positive) (eg : Z) :
  2 ^ 52 <= Zpos mg < 2 ^ 53 -> -48 <= eg <= 0 ->
  Zpos mg * 2 ^ (eg + 48) = g * 2 ^ 48 ->
  SFcompare (S754_finite false mg eg) (S754_finite false mR eR)
    = Some (Z.compare (g * 2 ^ b) M1') /\
  SFcompare (S754_finite false mR eR) (S754_finite false mg eg)
    = Some (Z.compare M1' (g * 2 ^ b)).
Proof.
  intros Hmg Heg Vg.
  assert (Eg : Zpos mg * 2 ^ (eg + (b + 4)) = g * 2 ^ b * 16).
  { replace (eg + (b + 4)) with ((eg + 48) + (b - 44)) by lia.
    rewrite pow2_split by lia. rewrite Z.mul_assoc, Vg.
    replace b with (b - 44 + 44) at 2 by lia.
    rewrite (pow2_split (b - 44) 44) by lia.
    change 16 with (2 ^ 4). change (2 ^ 48) with (2 ^ 44 * 2 ^ 4). ring. }
  assert (ER' : Zpos mR * 2 ^ (eR + (b + 4)) = M1' * 16).
  { replace (eR + (b + 4)) with ((eR + b) + 4) by lia.
    rewrite pow2_split by lia. rewrite Z.mul_assoc, VR. reflexivity. }
  split.
  - rewrite (compare_scaled mg mR eg eR (b + 4)) by lia.
    rewrite Eg, ER'. f_equal. symmetry. apply Zmult_compare_compat_r. lia.
  - rewrite (compare_scaled mR mg eR eg (b + 4)) by lia.
    rewrite Eg, ER'. f_equal. symmetry. apply Zmult_compare_compat_r. lia.
Qed.

Lemma rate_percent :
  exists k,
    PyFloat.format_0f (S754_finite false mR eR) = PyStr.of_int k /\
    - t <= 2 * (k * t - 100 * c) <= t.
Proof.
  exists (PyFloat.round_half_even (Zpos mR) (- eR)). split.
  - cbn [PyFloat.format_0f]. unfold PyFloat.nearest_int.
    replace (0 <=? eR) with false by (symmetry; apply Z.leb_gt; lia).
    reflexivity.
  - apply (core_round c t M1 M1' (2 ^ b) W4); try lia; try exact B_large.
    pose proof (rhe_spec (Zpos mR) (- eR) ltac:(lia)) as [L U].
    set (k := PyFloat.round_half_even (Zpos mR) (- eR)) in *. clearbody k.
    assert (EB : 2 ^ b = 2 ^ (- eR) * 2 ^ (eR + b)).
    { rewrite <- pow2_split by lia. f_equal. lia. }
    assert (HS : 0 < 2 ^ (eR + b)) by (apply Z.pow_pos_nonneg; lia).
    rewrite <- VR, EB.
    set (P := 2 ^ (- eR)) in *. set (S := 2 ^ (eR + b)) in *. clearbody P S.
    replace (2 * (P * S * k - Zpos mR * S)) with (2 * (k * P - Zpos mR) * S) by ring.
    split.
    + replace (- (P * S)) with ((- P) * S) by ring.
      apply Z.mul_le_mono_nonneg_r; lia.
    + apply Z.mul_le_mono_nonneg_r; lia.
Qed.

Lemma rate_tier :
  encouragement (S754_finite false mR eR) = exact_tier c t.
Proof.
  pose proof B_large as HB.
  destruct (compare_threshold 100 7036874417766400 (-46)
              ltac:(split; [discriminate|reflexivity]) ltac:(lia) eq_refl)
    as [_ C100].
  destruct (compare_threshold 75 5277655813324800 (-46)
              ltac:(split; [discriminate|reflexivity]) ltac:(lia) eq_refl)
    as [C75 _].
  destruct (compare_threshold 50 7036874417766400 (-47)
              ltac:(split; [discriminate|reflexivity]) ltac:(lia) eq_refl)
    as [C50 _].
  destruct (compare_threshold 25 7036874417766400 (-48)
              ltac:(split; [discriminate|reflexivity]) ltac:(lia) eq_refl)
    as [C25 _].
  pose proof (core_ge c t M1 M1' (2 ^ b) W4 ltac:(lia) HB HW E1 E2) as Ge.
  pose proof (core_le c t M1 M1' (2 ^ b) W4 ltac:(lia) HB HW E1 E2) as Le.
  pose proof (core_lt c t M1 M1' (2 ^ b) W4 ltac:(lia) HB HW E1 E2) as Lt.
  unfold encouragement, exact_tier, PyFloat.eq_int, PyFloat.ge_int, SFeqb, SFleb.
  change (PyFloat.of_int 100) with (S754_finite false 7036874417766400 (-46)).
  change (PyFloat.of_int 75) with (S754_finite false 5277655813324800 (-46)).
  change (PyFloat.of_int 50) with (S754_finite false 7036874417766400 (-47)).
  change (PyFloat.of_int 25) with (S754_finite false 7036874417766400 (-48)).
  rewrite C100, C75, C50, C25.
  destruct (Z.eqb_spec c t) as [E|E].
  - specialize (Ge 4 ltac:(lia) ltac:(lia)). specialize (Le 4 ltac:(lia) ltac:(lia)).
    replace (M1' ?= 100 * 2 ^ b) with Eq; [reflexivity|].
    symmetry. apply Z.compare_eq_iff. lia.
  - specialize (Lt 4 ltac:(lia) ltac:(lia)).
    replace (M1' ?= 100 * 2 ^ b) with Datatypes.Lt
      by (symmetry; apply Z.compare_lt_iff; lia).
    destruct (Z.leb_spec (3 * t) (4 * c)) as [L3|L3].
    { specialize (Ge 3 ltac:(lia) ltac:(lia)).
      destruct (Z.compare_spec (75 * 2 ^ b) M1'); try reflexivity; lia. }
    pose proof (core_lt c t M1 M1' (2 ^ b) W4 ltac:(lia) HB HW E1 E2 3
                  ltac:(lia) ltac:(lia)) as Lt3.
    replace (75 * 2 ^ b ?= M1') with Datatypes.Gt
      by (symmetry; apply Z.compare_gt_iff; lia).
    destruct (Z.leb_spec (2 * t) (4 * c)) as [L2|L2].
    { specialize (Ge 2 ltac:(lia) ltac:(lia)).
      destruct (Z.compare_spec (50 * 2 ^ b) M1'); try reflexivity; lia. }
    pose proof (core_lt c t M1 M1' (2 ^ b) W4 ltac:(lia) HB HW E1 E2 2
                  ltac:(lia) ltac:(lia)) as Lt2.
    replace (50 * 2 ^ b ?= M1') with Datatypes.Gt
      by (symmetry; apply Z.compare_gt_iff; lia).
    destruct (Z.leb_spec t (4 * c)) as [L1|L1].
    { specialize (Ge 1 ltac:(lia) ltac:(lia)).
      destruct (Z.compare_spec (25 * 2 ^ b) M1'); try reflexivity; lia. }
    pose proof (core_lt c t M1 M1' (2 ^ b) W4 ltac:(lia) HB HW E1 E2 1
                  ltac:(lia) ltac:(lia)) as Lt1.
    replace (25 * 2 ^ b ?= M1') with Datatypes.Gt
      by (symmetry; apply Z.compare_gt_iff; lia).
    reflexivity.
Qed.
End RateFacts.

Lemma rate_zero (t : Z) :
  0 < t -> t <= 2 ^ 42 -> completion_rate 0 t = Return (S754_zero false).
Proof.
  intros H0 Ht.
  assert (Ht53 : 0 < t < 2 ^ 53).
  { assert (2 ^ 42 < 2 ^ 53) by reflexivity. lia. }
  destruct (of_int_spec t Ht53) as (mt & et & Et & _).
  unfold completion_rate, PyFloat.true_div, PyFloat.mul.
  replace (0 <? t) with true by (symmetry; apply Z.ltb_lt; lia).
  replace (t =? 0) with false by (symmetry; apply Z.eqb_neq; lia).
  unfold PyFloat.of_int at 2, PyFloat.prec, PyFloat.emax. rewrite Et. reflexivity.
Qed.

(** The rate in exact terms, for up to [2^42] tasks. *)
Lemma completion_rate_exact (c t : Z) :
  0 <= c <= t -> 0 < t -> t <= 2 ^ 42 ->
  exists rate k,
    completion_rate c t = Return rate /\
    PyFloat.format_0f rate = PyStr.of_int k /\
    - t <= 2 * (k * t - 100 * c) <= t /\
    encouragement rate = exact_tier c t.
Proof.
  intros Hc H0 Ht. destruct (Z.eq_dec c 0) as [E|E].
  - subst c. exists (S754_zero false), 0.
    split; [now apply rate_zero|]. split; [reflexivity|]. split; [lia|].
    unfold exact_tier.
    replace (0 =? t) with false by (symmetry; apply Z.eqb_neq; lia).
    replace (3 * t <=? 4 * 0) with false by (symmetry; apply Z.leb_gt; lia).
    replace (2 * t <=? 4 * 0) with false by (symmetry; apply Z.leb_gt; lia).
    replace (t <=? 4 * 0) with false by (symmetry; apply Z.leb_gt; lia).
    reflexivity.
  - destruct (rate_spec c t ltac:(lia) Ht)
      as (mR & eR & M1 & M1' & b & W4 & ER & HmR & Hb & HeR & VR & HW & E1 & E2).
    destruct (rate_percent c t mR eR M1 M1' b W4 ltac:(lia) Ht Hb HeR VR HW E1 E2)
      as (k & Hk & Hr).
    exists (S754_finite false mR eR), k.
    split; [exact ER|]. split; [exact Hk|]. split; [exact Hr|].
    apply (rate_tier c t mR eR M1 M1' b W4); try assumption. lia.
Qed.

Lemma count_if_le_length (p : Task -> bool) (l : list Task) :
  0 <= count_if p l <= Z.of_nat (List.length l).
Proof.
  unfold count_if. pose proof (filter_length_le p l). lia.
Qed.

Lemma daily_summary_exact (self : TodoAssistant) :
  tasks self <> [] ->
  Z.of_nat (List.length (tasks self)) <= 2 ^ 42 ->
  exists rate k,
    get_daily_summary self
      = Return (summary_text (Z.of_nat (List.length (tasks self)))
                  (count_if is_completed (tasks self))
                  (count_if is_pending (tasks self))
                  (count_if (fun t => is_high_priority t && is_pending t)
                            (tasks self))
                  rate) /\
    PyFloat.format_0f rate = PyStr.of_int k /\
    - Z.of_nat (List.length (tasks self))
      <= 2 * (k * Z.of_nat (List.length (tasks self))
              - 100 * count_if is_completed (tasks self))
      <= Z.of_nat (List.length (tasks self)) /\
    encouragement rate
      = exact_tier (count_if is_completed (tasks self))
                   (Z.of_nat (List.length (tasks self))).
Proof.
  intros Hne Hlen.
  pose proof (count_if_le_length is_completed (tasks self)) as Hc.
  assert (H0 : 0 < Z.of_nat (List.length (tasks self))).
  { destruct (tasks self); [congruence|]. cbn [List.length]. lia. }
  destruct (completion_rate_exact _ _ Hc H0 Hlen) as (rate & k & ER & Hk & Hr & Ht).
  exists rate, k. split; [|split; [exact Hk|split; [exact Hr|exact Ht]]].
  unfold get_daily_summary. destruct (tasks self) as [|t0 r] eqn:E; [congruence|].
  now rewrite ER.
Qed.

(** X16: for a store of at most 2^42 tasks, the "Progress" figure of
    [get_daily_summary] is an integer nearest to 100 * completed / total
    in exact arithmetic: the two float roundings of
    [completed / total * 100] and the rounding of the [.0f] format never
    move it to another integer.  On the empty store the answer is the
    "no tasks yet" text. *)
Theorem daily_summary_percent (self : TodoAssistant) :
  (tasks self = [] -> get_daily_summary self = Return empty_summary) /\
  (tasks self <> [] ->
   Z.of_nat (List.length (tasks self)) <= 2 ^ 42 ->
   exists rate k,
     get_daily_summary self
       = Return (summary_text (Z.of_nat (List.length (tasks self)))
                   (count_if is_completed (tasks self))
                   (count_if is_pending (tasks self))
                   (count_if (fun t => is_high_priority t && is_pending t)
                             (tasks self))
                   rate) /\
     PyFloat.format_0f rate = PyStr.of_int k /\
     - Z.of_nat (List.length (tasks self))
       <= 2 * (k * Z.of_nat (List.length (tasks self))
               - 100 * count_if is_completed (tasks self))
       <= Z.of_nat (List.length (tasks self))).
Proof.
  split.
  - intros E. unfold get_daily_summary. now rewrite E.
  - intros Hne Hlen.
    destruct (daily_summary_exact self Hne Hlen) as (rate & k & H1 & H2 & H3 & _).
    exists rate, k. auto.
Qed.

Lemma daily_summary_percent_witness :
  tasks three_tasks <> [] /\
  Z.of_nat (List.length (tasks three_tasks)) <= 2 ^ 42 /\
  exists rate k,
    get_daily_summary three_tasks
      = Return (summary_text 3 1 2 1 rate) /\
    PyFloat.format_0f rate = PyStr.of_int k /\
    - 3 <= 2 * (k * 3 - 100 * 1) <= 3.
Proof.
  assert (Hne : tasks three_tasks <> []) by discriminate.
  assert (Hlen : Z.of_nat (List.length (tasks three_tasks)) <= 2 ^ 42)
    by (cbn; lia).
  split; [exact Hne|]. split; [exact Hlen|].
  exact (proj2 (daily_summary_percent three_tasks) Hne Hlen).
Defined.

(** X17: for a store of at most 2^42 tasks, the encouragement of
    [get_daily_summary] is chosen as exact arithmetic on the counts would:
    the "perfect" text exactly when every task is completed, otherwise the
    "great progress" text exactly when at least three quarters are
    completed, otherwise "good work" from one half, "making progress" from
    one quarter, and "let's get started" below.  The float comparisons
    with 100, 75, 50 and 25 never decide differently. *)
Theorem daily_summary_tier (self : TodoAssistant) :
  tasks self <> [] ->
  Z.of_nat (List.length (tasks self)) <= 2 ^ 42 ->
  exists rate,
    get_daily_summary self
      = Return (summary_text (Z.of_nat (List.length (tasks self)))
                  (count_if is_completed (tasks self))
                  (count_if is_pending (tasks self))
                  (count_if (fun t => is_high_priority t && is_pending t)
                            (tasks self))
                  rate) /\
    encouragement rate
      = exact_tier (count_if is_completed (tasks self))
                   (Z.of_nat (List.length (tasks self))).
Proof.
  intros Hne Hlen.
  destruct (daily_summary_exact self Hne Hlen) as (rate & k & H1 & _ & _ & H4).
  exists rate. auto.
Qed.

Lemma daily_summary_tier_witness :
  tasks three_tasks <> [] /\
  Z.of_nat (List.length (tasks three_tasks)) <= 2 ^ 42 /\
  exists rate,
    get_daily_summary three_tasks = Return (summary_text 3 1 2 1 rate) /\
    encouragement rate = tier2.
Proof.
  assert (Hne : tasks three_tasks <> []) by discriminate.
  assert (Hlen : Z.of_nat (List.length (tasks three_tasks)) <= 2 ^ 42)
    by (cbn; lia).
  split; [exact Hne|]. split; [exact Hlen|].
  exact (daily_summary_tier three_tasks Hne Hlen).
Defined.

(** ** Further consequences *)

(** X18: the suggested task has the best priority rank among the pending
    tasks: no stored pending task ranks strictly before it, so while an
    urgent task is pending no task of another priority is suggested. *)
Theorem suggested_task_has_best_rank (self : TodoAssistant) (t u : Task) :
  next_task self = Some t ->
  In u (tasks self) -> status u = "pending" ->
  priority_order (priority t) <= priority_order (priority u).
Proof.
  intros Hn Hu Hs.
  assert (Hin : In u (pending_tasks self)).
  { apply filter_In. split; [exact Hu|]. unfold is_pending. now rewrite Hs. }
  destruct (pending_tasks self) as [|m r] eqn:E; [contradiction|].
  rewrite (next_task_cons self m r E) in Hn. injection Hn as <-.
  destruct (first_min_from_split sort_key tuple_lt tuple_lt_asym
              tuple_lt_neg_trans r m) as (l1 & l2 & Hsplit & H1 & H2).
  set (t := first_min_from sort_key tuple_lt m r) in *.
  assert (Hnot : tuple_lt (sort_key u) (sort_key t) = false).
  { rewrite Hsplit in Hin. apply in_app_iff in Hin.
    destruct Hin as [Hin|[<-|Hin]].
    - apply tuple_lt_asym. now apply H1.
    - apply tuple_lt_irrefl.
    - now apply H2. }
  destruct (Z.le_gt_cases (priority_order (priority t))
                          (priority_order (priority u))) as [L|L]; [exact L|].
  assert (tuple_lt (sort_key u) (sort_key t) = true).
  { apply tuple_lt_spec. left. exact L. }
  congruence.
Qed.

Lemma suggested_task_has_best_rank_witness :
  next_task three_tasks
  = Some (mkTask 3 "call bank" "urgent" "pending" "2025-10-01 09:02"
                 (Some "2025-10-02") None) /\
  priority_order "urgent" <= priority_order "medium".
Proof.
  assert (H : next_task three_tasks
              = Some (mkTask 3 "call bank" "urgent" "pending" "2025-10-01 09:02"
                             (Some "2025-10-02") None)) by (vm_compute; reflexivity).
  split; [exact H|].
  apply (suggested_task_has_best_rank three_tasks _
           (mkTask 2 "write report" "medium" "pending" "2025-10-01 09:01"
                   (Some "today") None) H).
  - right. left. reflexivity.
  - reflexivity.
Defined.

(** X19: in a state reachable from the empty store, adding a task and
    then deleting the id it received gives back the task list as it was,
    while the counter stays advanced by one: the id is not handed out
    again. *)
Theorem add_then_delete (self : TodoAssistant) (env : Env)
    (now d p : string) (due : option string) :
  reachable self ->
  let '(_, self1, env1) := add_task self env now d p due in
  let '(_, self2, _) := delete_task self1 env1 (task_id_counter self) in
  tasks self2 = tasks self /\
  task_id_counter self2 = task_id_counter self + 1.
Proof.
  intros R. destruct (reachable_ids_ok self R) as [[_ B] _].
  unfold add_task. cbn zeta.
  unfold delete_task. cbn [tasks set_tasks set_counter task_id_counter].
  rewrite (find_task_first (task_id_counter self) (tasks self) []
             (mkTask (task_id_counter self) d (PyStr.lower p) "pending" now due None)
             0 eq_refl).
  - cbn [Nat.add tasks set_tasks task_id_counter]. rewrite pop_nth_app.
    split; [apply app_nil_r|reflexivity].
  - eapply Forall_impl; [|exact B]. cbn. intros a Ha. lia.
Qed.

Lemma add_then_delete_witness :
  reachable three_tasks /\
  (let '(_, self1, env1) :=
     add_task three_tasks quiet "2025-10-01 12:00" "call mum" "low" None in
   let '(_, self2, _) := delete_task self1 env1 (task_id_counter three_tasks) in
   tasks self2 = tasks three_tasks /\
   task_id_counter self2 = task_id_counter three_tasks + 1).
Proof.
  assert (R : reachable three_tasks) by (eexists; exists quiet; reflexivity).
  split; [exact R|].
  exact (add_then_delete three_tasks quiet "2025-10-01 12:00" "call mum" "low"
                         None R).
Defined.
